(** * TMSU [mount] sub-command (src/tmsu/cli/mount.go)

    A shallow embedding of [mountExec], [listMounts], [mountDefault] and
    [mountExplicit].  The Go functions talk to the operating system
    (os.Stat, os/exec, time.Sleep, syscall.Wait4, a pipe read) and to the
    logger; here every such call appends an [Event] to a chronological
    trace and takes its answer from a [World], a description of what the
    operating system would answer during one invocation.  A Go [error] is
    modelled by the text its [Error()] method returns, [nil] by [None]. *)

From Stdlib Require Import String Ascii List ZArith Bool Lia PeanoNat.
Import ListNotations.
Local Open Scope list_scope.
Local Open Scope string_scope.

(** ** Go values *)

(** A non-nil Go error, as the text [%v] prints for it. *)
Definition error : Type := string.

(** The part of os.FileInfo the command looks at. *)
Record FileInfo : Type := mkFileInfo {
  Name : string;
  IsDir : bool
}.

(** syscall.WaitStatus is a uint32 holding the raw wait(2) status word. *)
Definition WaitStatus : Type := Z.

(** os/exec.Cmd: the path of the program to run and the full argument
    vector (element 0 is the name given to exec.Command). *)
Record Cmd : Type := mkCmd {
  Path : string;
  Args : list string
}.

(** The outcome of the search exec.Command makes for a program name
    (exec.LookPath).  For a name without a path separator the directories
    of $PATH are tried in order: each candidate is examined with os.Stat,
    up to the first that is an executable file, and that candidate becomes
    Cmd.Path.  A name that is not searched, or not found, is kept as
    Cmd.Path.  Which names are searched and how the candidates are spelled
    is the library's business; the world gives the outcome: [tried], the
    paths examined, in order, and [found], the Path that is stored. *)
Record PathSearch : Type := mkPathSearch {
  tried : list string;
  found : string
}.

(** vfs.Mount: one line of the mount table. *)
Record Mount : Type := mkMount {
  DatabasePath : string;
  MountPath : string
}.

(** ** The operating system seen by one invocation *)

(** What the file system holds under a name. *)
Inductive FsEntry : Type :=
| Absent
| Faulty (reason : string)      (* permission denied, I/O error, ... *)
| Present (fi : FileInfo).

(** The daemon at the moment it is polled, after the sleep: still running,
    or terminated with the raw status word wait4(2) stores. *)
Inductive Child : Type :=
| StillRunning
| Terminated (wstatus : WaitStatus).

Record World : Type := mkWorld {
  os_Args0 : string;                         (* os.Args[0] *)
  os_Executable : string;                    (* the file of the running program *)
  path_search : string -> PathSearch;        (* the search of exec.Command *)
  database_Path : string;                    (* tmsu/storage/database.Path *)
  fs : string -> FsEntry;
  mount_table : list Mount * option error;   (* answer of vfs.GetMountTable *)
  pipe_fault : option error;                 (* pipe(2) failing in StderrPipe *)
  start_fault : option error;                (* Start failing: a search that
                                                found nothing, or fork/exec *)
  daemon_pid : Z;
  wait_fault : option error;                 (* wait4(2) failing *)
  child : Child;
  child_stderr : string;                     (* bytes the daemon wrote to fd 2 *)
  read_fault : option error                  (* read(2) failing on the pipe *)
}.

Inductive Event : Type :=
| EStat (name : string)
| ELogSupp (msg : string)
| ELogPrintf (msg : string)
| EGetMountTable
| EStderrPipe (c : Cmd)
| EStart (c : Cmd)
| ESleep (nanoseconds : Z)
| EWait4 (pid : Z) (options : Z)
| ERead (len : nat).

(** ** Computations: read the world, append to the trace *)

Definition M (A : Type) : Type := World -> A * list Event.

Definition ret {A : Type} (a : A) : M A := fun _ => (a, []).

Definition bind {A B : Type} (m : M A) (f : A -> M B) : M B :=
  fun w =>
    let (a, t1) := m w in
    let (b, t2) := f a w in
    (b, (t1 ++ t2)%list).

Definition emit (e : Event) : M unit := fun _ => (tt, [e]).

Definition ask {A : Type} (q : World -> A) : M A := fun w => (q w, []).

Declare Scope go_scope.
Delimit Scope go_scope with go.
Notation "x <- c1 ;; c2" := (bind c1 (fun x => c2))
  (at level 100, c1 at next level, right associativity) : go_scope.
Notation "' pat <- c1 ;; c2" := (bind c1 (fun x => match x with pat => c2 end))
  (at level 100, pat pattern, c1 at next level, right associativity) : go_scope.
Notation "c1 ;; c2" := (bind c1 (fun _ => c2))
  (at level 100, right associativity) : go_scope.
Local Open Scope go_scope.

Definition result {A : Type} (m : M A) (w : World) : A := fst (m w).
Definition trace {A : Type} (m : M A) (w : World) : list Event := snd (m w).

(** ** The Go library calls the command makes *)

(** os.Stat: a FileInfo and a nil error for a name that resolves; otherwise
    a nil FileInfo and a *PathError, which prints as "stat NAME: CAUSE".
    A missing name is the cause ENOENT. *)
Definition stat_result (name : string) (e : FsEntry)
  : option FileInfo * option error :=
  match e with
  | Present fi => (Some fi, None)
  | Absent => (None, Some ("stat " ++ name ++ ": no such file or directory"))
  | Faulty reason => (None, Some ("stat " ++ name ++ ": " ++ reason))
  end.

Definition os_Stat (name : string) : M (option FileInfo * option error) :=
  fun w => (stat_result name (fs w name), [EStat name]).

Definition log_Supp (msg : string) : M unit := emit (ELogSupp msg).
Definition log_Printf (msg : string) : M unit := emit (ELogPrintf msg).

Definition vfs_GetMountTable : M (list Mount * option error) :=
  fun w => (mount_table w, [EGetMountTable]).

(** exec.Command(name, arg...): the search for the program is made here,
    with its os.Stat calls; the command is not run yet. *)
Definition exec_Command (name : string) (arg : list string) : M Cmd :=
  fun w => (mkCmd (found (path_search w name)) (name :: arg),
            map EStat (tried (path_search w name))).

Definition StderrPipe (c : Cmd) : M (option error) :=
  fun w => (pipe_fault w, [EStderrPipe c]).

(** Cmd.Start: it fails without starting anything when the search made
    by exec.Command found no program, and when fork or exec fails;
    [start_fault] is the error in either case. *)
Definition Start (c : Cmd) : M (option error) :=
  fun w => (start_fault w, [EStart c]).

(** daemon.Process.Pid *)
Definition Process_Pid : M Z := ask daemon_pid.

Definition time_Sleep (d : Z) : M unit := emit (ESleep d).

(** time.Millisecond, in the nanoseconds a time.Duration counts. *)
Definition time_Millisecond : Z := 1000000.

(** syscall.WNOHANG on Linux. *)
Definition WNOHANG : Z := 1.

(** syscall.Wait4(pid, &wstatus, options, &rusage) called on a zero
    [wstatus]: the pid reaped, the status word, the error.  With WNOHANG a
    child that has not changed state gives pid 0 and the word is left 0. *)
Definition syscall_Wait4 (pid options : Z) : M (Z * WaitStatus * option error) :=
  fun w =>
    (match wait_fault w with
     | Some e => (-1, 0, Some e)
     | None =>
         match child w with
         | StillRunning => (0, 0, None)
         | Terminated ws => (pid, ws, None)
         end
     end%Z, [EWait4 pid options]).

(** WaitStatus.Exited: w&mask == exited, with mask 0x7F and exited 0. *)
Definition Exited (w : WaitStatus) : bool := (Z.land w 127 =? 0)%Z.

(** WaitStatus.ExitStatus: -1 unless Exited, else int(w>>shift) & 0xFF. *)
Definition ExitStatus (w : WaitStatus) : Z :=
  if Exited w then Z.land (Z.shiftr w 8) 255 else (-1)%Z.

(** make([]byte, n) *)
Fixpoint make_bytes (n : nat) : string :=
  match n with
  | O => EmptyString
  | S k => String Ascii.zero (make_bytes k)
  end.

(** os.File.Read on the read end of the daemon's stderr pipe, once the
    daemon has terminated: the bytes available are copied to the front of
    the buffer; a read of no byte into a non-empty buffer is io.EOF. *)
Definition pipe_Read (data : string) (fault : option error) (buffer : string)
  : string * nat * option error :=
  match fault with
  | Some e => (buffer, 0, Some e)
  | None =>
      let n := Nat.min (String.length buffer) (String.length data) in
      if (n =? 0)%nat && (0 <? String.length buffer)%nat
      then (buffer, 0, Some "EOF")
      else (substring 0 n data ++ substring n (String.length buffer - n) buffer,
            n, None)
  end.

Definition Read (buffer : string) : M (string * nat * option error) :=
  fun w => (pipe_Read (child_stderr w) (read_fault w) buffer,
            [ERead (String.length buffer)]).

(** ** tmsu/cli/mount.go *)

Definition HALF_SECOND : Z := 500000000.

(** The [for _, mount := range mt] loop of [listMounts]. *)
Fixpoint listMounts_range (mt : list Mount) : M unit :=
  match mt with
  | [] => ret tt
  | mount :: rest =>
      log_Printf ("'" ++ DatabasePath mount ++ "' at '"
                      ++ MountPath mount ++ "'") ;;
      listMounts_range rest
  end.

Definition listMounts : M (option error) :=
  log_Supp "retrieving mount table." ;;
  '(mt, err) <- vfs_GetMountTable ;;
  match err with
  | Some e => ret (Some ("could not get mount table: " ++ e))
  | None =>
      (if (List.length mt =? 0)%nat
       then log_Supp "mount table is empty."
       else ret tt) ;;
      listMounts_range mt ;;
      ret None
  end.

Definition mountExplicit (databasePath mountPath : string) (allowOther : bool)
  : M (option error) :=
  '(stat, err) <- os_Stat mountPath ;;
  match err with
  | Some e => ret (Some (mountPath ++ ": could not stat: " ++ e))
  | None =>
  match stat with
  | None => ret (Some (mountPath ++ ": mount point does not exist."))
  | Some stat =>
  if negb (IsDir stat)
  then ret (Some (mountPath ++ ": mount point is not a directory."))
  else
  '(stat, err) <- os_Stat databasePath ;;
  match err with
  | Some e => ret (Some (databasePath ++ ": could not stat: " ++ e))
  | None =>
  match stat with
  | None =>
      (* the format has a verb but the call passes no operand *)
      ret (Some "%!v(MISSING): database does not exist.")
  | Some _ =>
  log_Supp ("spawning daemon to mount VFS for database '" ++ databasePath
            ++ "' at '" ++ mountPath ++ "'.") ;;
  let args := ["vfs"; databasePath; mountPath] in
  let args := if allowOther then (args ++ ["--allow-other"])%list else args in
  arg0 <- ask os_Args0 ;;
  daemon <- exec_Command arg0 args ;;
  err <- StderrPipe daemon ;;
  match err with
  | Some e => ret (Some ("could not open standard error pipe: " ++ e))
  | None =>
  err <- Start daemon ;;
  match err with
  | Some e => ret (Some ("could not start daemon: " ++ e))
  | None =>
  log_Supp "sleeping." ;;
  time_Sleep HALF_SECOND ;;
  log_Supp "checking whether daemon started successfully." ;;
  pid <- Process_Pid ;;
  '(_, waitStatus, err) <- syscall_Wait4 pid WNOHANG ;;
  match err with
  | Some e => ret (Some ("could not check daemon status: " ++ e))
  | None =>
  if Exited waitStatus
  then
    if negb (ExitStatus waitStatus =? 0)%Z
    then
      let buffer := make_bytes 1024 in
      '(buffer, count, err) <- Read buffer ;;
      match err with
      | Some e => ret (Some ("could not read from error pipe: " ++ e))
      | None =>
          ret (Some ("virtual filesystem mount failed: "
                     ++ substring 0 count buffer))
      end
    else ret None
  else ret None
  end end end end end end end.

Definition mountDefault (mountPath : string) (allowOther : bool)
  : M (option error) :=
  path <- ask database_Path ;;
  err <- mountExplicit path mountPath allowOther ;;
  match err with
  | Some e => ret (Some e)
  | None => ret None
  end.

Section Router.

(** The option parser of package cli is outside this file's source: the
    router only asks it whether a long option name was given. *)
Variable Options : Type.
Variable HasOption : Options -> string -> bool.

Definition mountExec (options : Options) (args : list string)
  : M (option error) :=
  let allowOther := HasOption options "--allow-other" in
  let argCount := List.length args in
  match argCount with
  | 0%nat =>
      err <- listMounts ;;
      match err with
      | Some e => ret (Some ("could not list mounts: " ++ e))
      | None => ret None
      end
  | 1%nat =>
      let mountPath := nth 0 args "" in
      err <- mountDefault mountPath allowOther ;;
      match err with
      | Some e =>
          ret (Some ("could not mount database at '" ++ mountPath
                     ++ "': " ++ e))
      | None => ret None
      end
  | 2%nat =>
      let databasePath := nth 0 args "" in
      let mountPath := nth 1 args "" in
      err <- mountExplicit databasePath mountPath allowOther ;;
      match err with
      | Some e =>
          ret (Some ("could not mount database '" ++ databasePath
                     ++ "' at '" ++ mountPath ++ "': " ++ e))
      | None => ret None
      end
  | _ => ret (Some "Too many arguments.")
  end.

End Router.

(** ** Vocabulary of the specification *)

(** The mount point passes its check: the name resolves to a directory. *)
Definition is_directory (w : World) (name : string) : bool :=
  match fs w name with
  | Present fi => IsDir fi
  | _ => false
  end.

(** The name resolves to something, of whatever type. *)
Definition path_exists (w : World) (name : string) : bool :=
  match fs w name with
  | Present _ => true
  | _ => false
  end.

Definition is_absent (w : World) (name : string) : bool :=
  match fs w name with
  | Absent => true
  | _ => false
  end.

Definition no_fault (e : option error) : bool :=
  match e with
  | None => true
  | Some _ => false
  end.

(** Both checks pass. *)
Definition validated (w : World) (databasePath mountPath : string) : bool :=
  is_directory w mountPath && path_exists w databasePath.

(** The checks pass and the operating system starts the daemon. *)
Definition started (w : World) (databasePath mountPath : string) : bool :=
  validated w databasePath mountPath
  && no_fault (pipe_fault w) && no_fault (start_fault w).

(** The daemon is started and the poll itself works. *)
Definition polled (w : World) (databasePath mountPath : string) : bool :=
  started w databasePath mountPath && no_fault (wait_fault w).

Definition is_start (e : Event) : bool :=
  match e with
  | EStart _ => true
  | _ => false
  end.

Definition is_read (e : Event) : bool :=
  match e with
  | ERead _ => true
  | _ => false
  end.

(** Calls that can suspend the caller: sleeping, reading a pipe, and
    waiting for a child unless WNOHANG (bit 0 of the options) is set. *)
Definition is_blocking (e : Event) : bool :=
  match e with
  | ESleep _ | ERead _ => true
  | EWait4 _ options => negb (Z.testbit options 0)
  | _ => false
  end.

Definition is_sleep (e : Event) : bool :=
  match e with
  | ESleep _ => true
  | _ => false
  end.

Definition is_poll (e : Event) : bool :=
  match e with
  | EWait4 _ _ => true
  | _ => false
  end.

Definition spawned (t : list Event) : bool := existsb is_start t.

(** The line [listMounts] prints for one record. *)
Definition mount_line (m : Mount) : Event :=
  ELogPrintf ("'" ++ DatabasePath m ++ "' at '" ++ MountPath m ++ "'").

(** The error kinds of the specification, recognised by the message the
    command builds for each. *)
Definition NotFound_mount (path : string) : error :=
  path ++ ": mount point does not exist.".

Definition StatFailed (path cause : string) : error :=
  path ++ ": could not stat: " ++ cause.

Definition NotADirectory (path : string) : error :=
  path ++ ": mount point is not a directory.".

Definition PollFailed (cause : string) : error :=
  "could not check daemon status: " ++ cause.

Definition DiagnosticReadFailed (cause : string) : error :=
  "could not read from error pipe: " ++ cause.

Definition MountFailed (diagnostic : string) : error :=
  "virtual filesystem mount failed: " ++ diagnostic.

(** The argument vector as the specification words it: the sub-command
    token, the database path, the mount path, then the flag if asked for. *)
Definition daemon_args (databasePath mountPath : string) (allowOther : bool)
  : list string :=
  "vfs" :: databasePath :: mountPath
        :: (if allowOther then ["--allow-other"] else []).

(** The program exec.Command settles on for os.Args[0], and the os.Stat
    calls it makes to get there. *)
Definition resolved_program (w : World) : string :=
  found (path_search w (os_Args0 w)).

Definition lookup_trace (w : World) : list Event :=
  map EStat (tried (path_search w (os_Args0 w))).

Definition daemon_cmd (w : World) (databasePath mountPath : string)
  (allowOther : bool) : Cmd :=
  mkCmd (resolved_program w)
        (os_Args0 w :: daemon_args databasePath mountPath allowOther).

Definition spawn_message (databasePath mountPath : string) : string :=
  "spawning daemon to mount VFS for database '" ++ databasePath
  ++ "' at '" ++ mountPath ++ "'.".

(** The calls made up to and including the poll, when the daemon starts. *)
Definition launch_trace (w : World) (databasePath mountPath : string)
  (allowOther : bool) : list Event :=
  ([ EStat mountPath; EStat databasePath;
     ELogSupp (spawn_message databasePath mountPath) ]
   ++ lookup_trace w
   ++ [ EStderrPipe (daemon_cmd w databasePath mountPath allowOther);
        EStart (daemon_cmd w databasePath mountPath allowOther);
        ELogSupp "sleeping.";
        ESleep HALF_SECOND;
        ELogSupp "checking whether daemon started successfully.";
        EWait4 (daemon_pid w) WNOHANG ])%list.

(** ** Vocabulary for whole runs *)

Definition is_stat (e : Event) : bool :=
  match e with
  | EStat _ => true
  | _ => false
  end.

Definition is_printf (e : Event) : bool :=
  match e with
  | ELogPrintf _ => true
  | _ => false
  end.

Definition is_table_query (e : Event) : bool :=
  match e with
  | EGetMountTable => true
  | _ => false
  end.

Definition count (p : Event -> bool) (t : list Event) : nat :=
  List.length (filter p t).

(** The status word wait4(2) stores for a child that called exit(code):
    the code in bits 8 to 15, the low seven bits zero. *)
Definition exit_word (code : Z) : WaitStatus := Z.shiftl code 8.

(** The status word for a child killed by a signal: the signal number in
    the low seven bits, bit 7 set when a core was dumped. *)
Definition signal_word (sig : Z) (core : bool) : WaitStatus :=
  Z.lor sig (if core then 128 else 0)%Z.

(** What the poll must show for [mountExplicit] to return nil: anything
    but a child that Exited with a status other than zero. *)
Definition daemon_ok (c : Child) : bool :=
  match c with
  | StillRunning => true
  | Terminated ws => negb (Exited ws && negb (ExitStatus ws =? 0)%Z)
  end.

Definition succeeds (w : World) (databasePath mountPath : string) : bool :=
  polled w databasePath mountPath && daemon_ok (child w).

(** ** Sample worlds *)

Definition sample_fs (name : string) : FsEntry :=
  if name =? "/mnt/tags" then Present (mkFileInfo "tags" true)
  else if name =? "/home/u/files.db" then Present (mkFileInfo "files.db" false)
  else if name =? "/home/u/.tmsu/default.db"
       then Present (mkFileInfo "default.db" false)
  else if name =? "/root/vault" then Faulty "permission denied"
  else if name =? "/usr/bin/tmsu" then Present (mkFileInfo "tmsu" false)
  else Absent.

(** With PATH set to /usr/local/bin:/usr/bin, the bare name "tmsu" is
    found in the second directory; other names are used as they are. *)
Definition sample_search (name : string) : PathSearch :=
  if name =? "tmsu"
  then mkPathSearch ["/usr/local/bin/tmsu"; "/usr/bin/tmsu"] "/usr/bin/tmsu"
  else mkPathSearch [] name.

Definition sample_world (c : Child) (stderr : string) : World :=
  {| os_Args0 := "/usr/bin/tmsu";
     os_Executable := "/usr/bin/tmsu";
     path_search := sample_search;
     database_Path := "/home/u/.tmsu/default.db";
     fs := sample_fs;
     mount_table := ([], None);
     pipe_fault := None;
     start_fault := None;
     daemon_pid := 4242;
     wait_fault := None;
     child := c;
     child_stderr := stderr;
     read_fault := None |}.

Definition poll_broken_world : World :=
  {| os_Args0 := "/usr/bin/tmsu";
     os_Executable := "/usr/bin/tmsu";
     path_search := sample_search;
     database_Path := "/home/u/.tmsu/default.db";
     fs := sample_fs;
     mount_table := ([], None);
     pipe_fault := None;
     start_fault := None;
     daemon_pid := 4242;
     wait_fault := Some "no child processes";
     child := StillRunning;
     child_stderr := "";
     read_fault := None |}.

(** The sample world with a given mount table answer. *)
Definition table_world (table : list Mount * option error) : World :=
  {| os_Args0 := "/usr/bin/tmsu";
     os_Executable := "/usr/bin/tmsu";
     path_search := sample_search;
     database_Path := "/home/u/.tmsu/default.db";
     fs := sample_fs;
     mount_table := table;
     pipe_fault := None;
     start_fault := None;
     daemon_pid := 4242;
     wait_fault := None;
     child := StillRunning;
     child_stderr := "";
     read_fault := None |}.

(** The sample world where opening the pipe or starting the daemon fails. *)
Definition launch_fault_world (pipe start : option error) : World :=
  {| os_Args0 := "/usr/bin/tmsu";
     os_Executable := "/usr/bin/tmsu";
     path_search := sample_search;
     database_Path := "/home/u/.tmsu/default.db";
     fs := sample_fs;
     mount_table := ([], None);
     pipe_fault := pipe;
     start_fault := start;
     daemon_pid := 4242;
     wait_fault := None;
     child := StillRunning;
     child_stderr := "";
     read_fault := None |}.

(** A build in /opt/tmsu/bin run under the bare name "tmsu" (argv[0] is
    chosen by whoever starts the program), with another tmsu in PATH. *)
Definition renamed_world : World :=
  {| os_Args0 := "tmsu";
     os_Executable := "/opt/tmsu/bin/tmsu";
     path_search := sample_search;
     database_Path := "/home/u/.tmsu/default.db";
     fs := sample_fs;
     mount_table := ([], None);
     pipe_fault := None;
     start_fault := None;
     daemon_pid := 4242;
     wait_fault := None;
     child := StillRunning;
     child_stderr := "";
     read_fault := None |}.

Definition sample_table : list Mount :=
  [ mkMount "/home/u/files.db" "/mnt/tags";
    mkMount "/home/u/.tmsu/default.db" "/mnt/all" ].

(** * Properties *)

(** ** Strings and the pipe buffer *)

Lemma length_make_bytes (n : nat) : String.length (make_bytes n) = n.
Proof.
  induction n as [|n IH]; simpl; [reflexivity | now rewrite IH].
Qed.

Lemma length_substring_0 (n : nat) (s : string) :
  String.length (substring 0 n s) = Nat.min n (String.length s).
Proof.
  revert s; induction n as [|n IH]; intros [|c s]; simpl; try reflexivity.
  now rewrite IH.
Qed.

Lemma substring_0_append (a b : string) :
  substring 0 (String.length a) (a ++ b) = a.
Proof.
  induction a as [|c a IH]; simpl.
  - destruct b; reflexivity.
  - now rewrite IH.
Qed.

Lemma substring_0_min (n : nat) (s : string) :
  substring 0 (Nat.min n (String.length s)) s = substring 0 n s.
Proof.
  revert s; induction n as [|n IH]; intros [|c s]; simpl; try reflexivity.
  now rewrite IH.
Qed.

Lemma append_inv_head (p a b : string) : p ++ a = p ++ b -> a = b.
Proof.
  induction p as [|c p IH]; simpl; intros H; [exact H|].
  injection H as H. now apply IH.
Qed.

(** A read on a pipe that holds bytes delivers a prefix of them, as long
    as the buffer at most. *)
Lemma pipe_Read_data (data : string) (k : nat) :
  data <> "" ->
  exists buffer count,
    pipe_Read data None (make_bytes (S k)) = (buffer, count, None)
    /\ substring 0 count buffer = substring 0 (S k) data.
Proof.
  intros Hd. unfold pipe_Read. rewrite length_make_bytes.
  destruct data as [|c data]; [congruence|].
  cbn [String.length Nat.min Nat.eqb andb].
  eexists _, _. split; [reflexivity|].
  set (n := S (Nat.min k (String.length data))).
  assert (Hn : n = Nat.min (S k) (String.length (String c data))) by reflexivity.
  assert (Hl : String.length (substring 0 n (String c data)) = n).
  { rewrite length_substring_0, Hn. apply Nat.min_l, Nat.le_min_r. }
  rewrite <- Hl at 1. rewrite substring_0_append.
  rewrite Hn. apply substring_0_min.
Qed.

(** A read on a drained pipe whose writer is gone is end of file. *)
Lemma pipe_Read_empty (k : nat) :
  pipe_Read "" None (make_bytes (S k)) = (make_bytes (S k), 0%nat, Some "EOF").
Proof.
  unfold pipe_Read. rewrite length_make_bytes. reflexivity.
Qed.

(** ** Running [mountExplicit] *)

Ltac world_facts :=
  unfold polled, started, validated, is_directory, path_exists, is_absent,
    no_fault in *;
  repeat match goal with
    | H : (_ && _)%bool = true |- _ => apply andb_prop in H; destruct H
    | H : match ?x with _ => _ end = _ |- _ =>
        destruct x eqn:?; try discriminate H
    end.

Ltac go_run :=
  cbv [mountExplicit bind ret emit ask os_Stat stat_result log_Supp
       StderrPipe Start Process_Pid time_Sleep syscall_Wait4 Read
       exec_Command negb];
  repeat match goal with
    | H : ?x = _ |- context [match ?x with _ => _ end] =>
        rewrite H; cbv beta iota zeta
    end.

Implicit Types (w : World) (db mp : string) (ao : bool) (ws : WaitStatus).
Implicit Types (e reason : string) (fi : FileInfo).

Lemma run_mount_point_absent w db mp ao :
  fs w mp = Absent ->
  mountExplicit db mp ao w =
    (Some (StatFailed mp ("stat " ++ mp ++ ": no such file or directory")),
     [EStat mp]).
Proof. intros H. go_run. reflexivity. Qed.

Lemma run_mount_point_faulty w db mp ao reason :
  fs w mp = Faulty reason ->
  mountExplicit db mp ao w =
    (Some (StatFailed mp ("stat " ++ mp ++ ": " ++ reason)), [EStat mp]).
Proof. intros H. go_run. reflexivity. Qed.

Lemma run_mount_point_not_dir w db mp ao fi :
  fs w mp = Present fi -> IsDir fi = false ->
  mountExplicit db mp ao w = (Some (NotADirectory mp), [EStat mp]).
Proof. intros H Hd. go_run. reflexivity. Qed.

Lemma run_database_absent w db mp ao :
  is_directory w mp = true -> fs w db = Absent ->
  mountExplicit db mp ao w =
    (Some (StatFailed db ("stat " ++ db ++ ": no such file or directory")),
     [EStat mp; EStat db]).
Proof. intros Hm H. world_facts. go_run. reflexivity. Qed.

Lemma run_database_faulty w db mp ao reason :
  is_directory w mp = true -> fs w db = Faulty reason ->
  mountExplicit db mp ao w =
    (Some (StatFailed db ("stat " ++ db ++ ": " ++ reason)),
     [EStat mp; EStat db]).
Proof. intros Hm H. world_facts. go_run. reflexivity. Qed.

(** The command [mountExplicit] builds is the one the specification
    describes, and building it costs the os.Stat calls of the search. *)
Lemma daemon_cmd_built w db mp ao :
  exec_Command (os_Args0 w)
    (if ao then (["vfs"; db; mp] ++ ["--allow-other"])%list else ["vfs"; db; mp])
    w
  = (daemon_cmd w db mp ao, lookup_trace w).
Proof. destruct ao; reflexivity. Qed.

Lemma run_pipe_fault w db mp ao e :
  validated w db mp = true -> pipe_fault w = Some e ->
  mountExplicit db mp ao w =
    (Some ("could not open standard error pipe: " ++ e),
     ([EStat mp; EStat db; ELogSupp (spawn_message db mp)]
      ++ lookup_trace w ++ [EStderrPipe (daemon_cmd w db mp ao)])%list).
Proof.
  intros Hv H. world_facts.
  go_run. destruct ao; reflexivity.
Qed.

Lemma run_start_fault w db mp ao e :
  validated w db mp = true -> pipe_fault w = None -> start_fault w = Some e ->
  mountExplicit db mp ao w =
    (Some ("could not start daemon: " ++ e),
     ([EStat mp; EStat db; ELogSupp (spawn_message db mp)]
      ++ lookup_trace w
      ++ [EStderrPipe (daemon_cmd w db mp ao);
          EStart (daemon_cmd w db mp ao)])%list).
Proof.
  intros Hv Hp H. world_facts.
  go_run. destruct ao; reflexivity.
Qed.

Lemma run_wait_fault w db mp ao e :
  started w db mp = true -> wait_fault w = Some e ->
  mountExplicit db mp ao w = (Some (PollFailed e), launch_trace w db mp ao).
Proof.
  intros Hs H. world_facts. unfold launch_trace.
  go_run. destruct ao; reflexivity.
Qed.

Lemma run_still_running w db mp ao :
  polled w db mp = true -> child w = StillRunning ->
  mountExplicit db mp ao w = (None, launch_trace w db mp ao).
Proof.
  intros Hs H. world_facts. unfold launch_trace.
  go_run. destruct ao; reflexivity.
Qed.

Lemma run_not_exited w db mp ao ws :
  polled w db mp = true -> child w = Terminated ws -> Exited ws = false ->
  mountExplicit db mp ao w = (None, launch_trace w db mp ao).
Proof.
  intros Hs H Hx. world_facts. unfold launch_trace.
  go_run. destruct ao; reflexivity.
Qed.

Lemma run_exited_zero w db mp ao ws :
  polled w db mp = true -> child w = Terminated ws ->
  Exited ws = true -> ExitStatus ws = 0%Z ->
  mountExplicit db mp ao w = (None, launch_trace w db mp ao).
Proof.
  intros Hs H Hx Hz. world_facts. unfold launch_trace.
  go_run. rewrite Hz. destruct ao; reflexivity.
Qed.

Lemma run_read_fault w db mp ao ws e :
  polled w db mp = true -> child w = Terminated ws ->
  Exited ws = true -> ExitStatus ws <> 0%Z -> read_fault w = Some e ->
  mountExplicit db mp ao w =
    (Some (DiagnosticReadFailed e),
     (launch_trace w db mp ao ++ [ERead 1024])%list).
Proof.
  intros Hs H Hx Hz Hr. apply Z.eqb_neq in Hz. world_facts.
  unfold launch_trace. cbn [app]. rewrite <- app_assoc.
  go_run. unfold pipe_Read. rewrite Hr, length_make_bytes.
  destruct ao; reflexivity.
Qed.

Lemma run_read_eof w db mp ao ws :
  polled w db mp = true -> child w = Terminated ws ->
  Exited ws = true -> ExitStatus ws <> 0%Z ->
  read_fault w = None -> child_stderr w = "" ->
  mountExplicit db mp ao w =
    (Some (DiagnosticReadFailed "EOF"),
     (launch_trace w db mp ao ++ [ERead 1024])%list).
Proof.
  intros Hs H Hx Hz Hr He. apply Z.eqb_neq in Hz. world_facts.
  unfold launch_trace. cbn [app]. rewrite <- app_assoc.
  go_run. rewrite Hr, He, pipe_Read_empty, length_make_bytes.
  destruct ao; reflexivity.
Qed.

Lemma run_mount_failed w db mp ao ws :
  polled w db mp = true -> child w = Terminated ws ->
  Exited ws = true -> ExitStatus ws <> 0%Z ->
  read_fault w = None -> child_stderr w <> "" ->
  mountExplicit db mp ao w =
    (Some (MountFailed (substring 0 1024 (child_stderr w))),
     (launch_trace w db mp ao ++ [ERead 1024])%list).
Proof.
  intros Hs H Hx Hz Hr He. apply Z.eqb_neq in Hz. world_facts.
  unfold launch_trace. cbn [app]. rewrite <- app_assoc.
  go_run. rewrite Hr, length_make_bytes.
  destruct (pipe_Read_data (child_stderr w) 1023 He) as (b & c & Hb & Hc).
  rewrite Hb. cbv beta iota zeta. rewrite Hc.
  destruct ao; reflexivity.
Qed.

(** The search of exec.Command only makes os.Stat calls. *)
Lemma existsb_lookup_trace (p : Event -> bool) w :
  (forall name, p (EStat name) = false) ->
  existsb p (lookup_trace w) = false.
Proof.
  intros Hp. unfold lookup_trace.
  induction (tried (path_search w (os_Args0 w))) as [|n l IH];
    [reflexivity|].
  cbn [map existsb]. now rewrite Hp, IH.
Qed.

Lemma filter_lookup_trace (p : Event -> bool) w :
  (forall name, p (EStat name) = false) ->
  filter p (lookup_trace w) = [].
Proof.
  intros Hp. unfold lookup_trace.
  induction (tried (path_search w (os_Args0 w))) as [|n l IH];
    [reflexivity|].
  cbn [map filter]. now rewrite Hp, IH.
Qed.

Lemma in_lookup_trace (e : Event) w :
  In e (lookup_trace w) ->
  exists name, e = EStat name
               /\ In name (tried (path_search w (os_Args0 w))).
Proof.
  unfold lookup_trace. intros H. apply in_map_iff in H.
  destruct H as (name & <- & Hin). now exists name.
Qed.

Ltac trace_calc :=
  unfold spawned, launch_trace; cbn [app existsb filter];
  repeat rewrite existsb_app; repeat rewrite filter_app;
  repeat (rewrite existsb_lookup_trace by reflexivity);
  repeat (rewrite filter_lookup_trace by reflexivity);
  cbn [app existsb filter orb is_start is_read is_sleep is_poll
       is_blocking].

(** Every run of [mountExplicit] stops at one of five places: at the mount
    point check, at the database check, at the pipe, at the start of the
    daemon, or after the poll (with or without one read of the pipe). *)
Lemma mountExplicit_cases w db mp ao :
  let r := result (mountExplicit db mp ao) w in
  let t := trace (mountExplicit db mp ao) w in
  (is_directory w mp = false /\ r <> None /\ t = [EStat mp])
  \/ (is_directory w mp = true /\ path_exists w db = false /\ r <> None
      /\ t = [EStat mp; EStat db])
  \/ (validated w db mp = true /\ pipe_fault w <> None /\ r <> None
      /\ t = ([EStat mp; EStat db; ELogSupp (spawn_message db mp)]
               ++ lookup_trace w
               ++ [EStderrPipe (daemon_cmd w db mp ao)])%list)
  \/ (validated w db mp = true /\ pipe_fault w = None /\ start_fault w <> None
      /\ r <> None
      /\ t = ([EStat mp; EStat db; ELogSupp (spawn_message db mp)]
               ++ lookup_trace w
               ++ [EStderrPipe (daemon_cmd w db mp ao);
                   EStart (daemon_cmd w db mp ao)])%list)
  \/ (started w db mp = true
      /\ (t = launch_trace w db mp ao
          \/ (r <> None /\ t = (launch_trace w db mp ao ++ [ERead 1024])%list))).
Proof.
  unfold result, trace. cbv zeta.
  destruct (is_directory w mp) eqn:Hm.
  2:{ left. split; [reflexivity|].
      unfold is_directory in Hm. destruct (fs w mp) as [|reason|fi] eqn:E.
      - rewrite (run_mount_point_absent w db mp ao E). now split.
      - rewrite (run_mount_point_faulty w db mp ao reason E). now split.
      - rewrite (run_mount_point_not_dir w db mp ao fi E Hm). now split. }
  right. destruct (path_exists w db) eqn:Hd.
  2:{ left. do 2 (split; [reflexivity|]).
      unfold path_exists in Hd. destruct (fs w db) as [|reason|fi] eqn:E;
        [| |discriminate].
      - rewrite (run_database_absent w db mp ao Hm E). now split.
      - rewrite (run_database_faulty w db mp ao reason Hm E). now split. }
  right.
  assert (Hv : validated w db mp = true)
    by (unfold validated; now rewrite Hm, Hd).
  destruct (pipe_fault w) as [e|] eqn:Hp.
  { left. rewrite (run_pipe_fault w db mp ao e Hv Hp).
    simpl. repeat split; first [assumption | discriminate]. }
  right. destruct (start_fault w) as [e|] eqn:Hs.
  { left. rewrite (run_start_fault w db mp ao e Hv Hp Hs).
    simpl. repeat split; first [assumption | discriminate]. }
  right.
  assert (Hst : started w db mp = true)
    by (unfold started; now rewrite Hv, Hp, Hs).
  split; [exact Hst|].
  destruct (wait_fault w) as [e|] eqn:Hw.
  { left. now rewrite (run_wait_fault w db mp ao e Hst Hw). }
  assert (Hpo : polled w db mp = true)
    by (unfold polled; now rewrite Hst, Hw).
  destruct (child w) as [|ws] eqn:Hc.
  { left. now rewrite (run_still_running w db mp ao Hpo Hc). }
  destruct (Exited ws) eqn:Hx.
  2:{ left. now rewrite (run_not_exited w db mp ao ws Hpo Hc Hx). }
  destruct (Z.eq_dec (ExitStatus ws) 0) as [Hz|Hz].
  { left. now rewrite (run_exited_zero w db mp ao ws Hpo Hc Hx Hz). }
  right. destruct (read_fault w) as [e|] eqn:Hr.
  { rewrite (run_read_fault w db mp ao ws e Hpo Hc Hx Hz Hr). now split. }
  destruct (string_dec (child_stderr w) "") as [He|He].
  - rewrite (run_read_eof w db mp ao ws Hpo Hc Hx Hz Hr He). now split.
  - rewrite (run_mount_failed w db mp ao ws Hpo Hc Hx Hz Hr He). now split.
Qed.

(** os.Stat never answers with a nil FileInfo and a nil error together, so
    the two "does not exist" returns of [mountExplicit] are never taken. *)
Lemma stat_result_not_nil_nil (name : string) (entry : FsEntry) :
  stat_result name entry <> (None, None).
Proof. destruct entry; discriminate. Qed.

Lemma run_mount_point_absent_kind w db mp ao :
  is_absent w mp = true ->
  result (mountExplicit db mp ao) w <> Some (NotFound_mount mp).
Proof.
  intros H. world_facts. unfold result.
  rewrite (run_mount_point_absent w db mp ao Heqf). simpl.
  intros E. injection E as E. unfold StatFailed, NotFound_mount in E.
  apply append_inv_head in E. discriminate E.
Qed.

(** ** Path validation *)

(** C1 (the code departs from this claim; the theorem records what it does).
    The claim: a mount point or database path that does not exist is
    rejected with the "does not exist" error, a kind of its own next to the
    "could not stat" error.  The code: os.Stat reports a missing name
    through its error, so the first guard of [mountExplicit] returns the
    "could not stat" error and the "does not exist" return is never
    reached, for the mount point and for the database alike. *)
Theorem C1_absent_path_is_reported_as_stat_failure :
  let w := sample_world StillRunning "" in
  is_absent w "/nonexistent" = true
  /\ mountExplicit "/home/u/files.db" "/nonexistent" false w
     = (Some (StatFailed "/nonexistent"
                "stat /nonexistent: no such file or directory"),
        [EStat "/nonexistent"])
  /\ result (mountExplicit "/home/u/files.db" "/nonexistent" false) w
     <> Some (NotFound_mount "/nonexistent")
  /\ is_absent w "/nowhere.db" = true
  /\ mountExplicit "/nowhere.db" "/mnt/tags" false w
     = (Some (StatFailed "/nowhere.db"
                "stat /nowhere.db: no such file or directory"),
        [EStat "/mnt/tags"; EStat "/nowhere.db"]).
Proof.
  cbv zeta. split; [reflexivity|]. split; [reflexivity|].
  split; [|split; reflexivity].
  apply run_mount_point_absent_kind. reflexivity.
Qed.

(** C3. Both checks, the mount point first and the database second, are
    over before a child process is started: a run that starts one has made
    both os.Stat calls first and both passed (the search for the program
    to run comes after them, the pipe and the start after that).  A mount
    point that is missing, unreadable or not a directory, and likewise a
    database path that does not resolve, makes the operation fail with no
    process started. *)
Theorem C3_validation_completes_before_spawn w db mp ao :
  let r := result (mountExplicit db mp ao) w in
  let t := trace (mountExplicit db mp ao) w in
  (spawned t = true ->
     validated w db mp = true
     /\ exists rest,
          t = (EStat mp :: EStat db :: ELogSupp (spawn_message db mp)
                 :: lookup_trace w
                 ++ EStderrPipe (daemon_cmd w db mp ao)
                 :: EStart (daemon_cmd w db mp ao) :: rest)%list
          /\ spawned (lookup_trace w) = false
          /\ spawned rest = false)
  /\ (is_directory w mp = false -> r <> None /\ spawned t = false)
  /\ (path_exists w db = false -> r <> None /\ spawned t = false).
Proof.
  cbv zeta.
  assert (Hl : spawned (lookup_trace w) = false)
    by (apply existsb_lookup_trace; reflexivity).
  destruct (mountExplicit_cases w db mp ao)
    as [(Hm & Hr & Ht) | [(Hm & Hd & Hr & Ht) | [(Hv & Hp & Hr & Ht)
       | [(Hv & Hp & Hs & Hr & Ht) | (Hst & Ht)]]]].
  - rewrite Ht. repeat split; try assumption; try reflexivity.
    all: intros; discriminate.
  - rewrite Ht. repeat split; try assumption; try reflexivity.
    all: intros; try discriminate; congruence.
  - assert (Hsp : spawned (trace (mountExplicit db mp ao) w) = false).
    { rewrite Ht. trace_calc. reflexivity. }
    rewrite Hsp. unfold validated in Hv. apply andb_prop in Hv as [Hm Hd].
    split; [intros H; discriminate H|].
    split; intros; congruence.
  - pose proof Hv as Hv'.
    unfold validated in Hv. apply andb_prop in Hv as [Hm Hd].
    split; [|split; intros; congruence].
    intros _. split; [exact Hv'|]. exists []. rewrite Ht.
    split; [reflexivity|]. split; [exact Hl | reflexivity].
  - assert (Hv : validated w db mp = true).
    { unfold started in Hst. apply andb_prop in Hst as [Hst _].
      now apply andb_prop in Hst as [Hst _]. }
    pose proof Hv as Hv'.
    unfold validated in Hv. apply andb_prop in Hv as [Hm Hd].
    split; [|split; intros; congruence].
    intros _. split; [assumption|].
    destruct Ht as [Ht | [_ Ht]]; rewrite Ht; unfold launch_trace;
      cbn [app]; [|rewrite <- app_assoc; cbn [app]];
      eexists; (split; [reflexivity|]); (split; [exact Hl | reflexivity]).
Qed.

(** The two sides of C3 on the sample file system: a request that passes
    both checks starts the daemon, one whose mount point is missing or a
    regular file does not. *)
Example validated_request_spawns :
  validated (sample_world StillRunning "") "/home/u/files.db" "/mnt/tags" = true
  /\ spawned (trace (mountExplicit "/home/u/files.db" "/mnt/tags" false)
                (sample_world StillRunning "")) = true.
Proof. split; reflexivity. Qed.

Example rejected_request_does_not_spawn :
  is_directory (sample_world StillRunning "") "/nonexistent" = false
  /\ spawned (trace (mountExplicit "/home/u/files.db" "/nonexistent" false)
                (sample_world StillRunning "")) = false
  /\ is_directory (sample_world StillRunning "") "/home/u/files.db" = false
  /\ trace (mountExplicit "/home/u/files.db" "/home/u/files.db" false)
       (sample_world StillRunning "") = [EStat "/home/u/files.db"].
Proof. repeat split. Qed.

(** C5. A mount point that resolves to something other than a directory is
    rejected with the "is not a directory" error, after the one os.Stat
    call.  A mount point that is a directory hands over to the database
    check, and there any entry passes, directory or not: the run goes on to
    prepare the daemon. *)
Theorem C5_mount_point_must_be_directory w db mp ao fi :
  fs w mp = Present fi ->
  (IsDir fi = false ->
     mountExplicit db mp ao w = (Some (NotADirectory mp), [EStat mp]))
  /\ (IsDir fi = true ->
      forall fd, fs w db = Present fd ->
        exists rest,
          trace (mountExplicit db mp ao) w
          = (EStat mp :: EStat db :: ELogSupp (spawn_message db mp)
               :: lookup_trace w
               ++ EStderrPipe (daemon_cmd w db mp ao) :: rest)%list).
Proof.
  intros Hm. split.
  - intros Hd. exact (run_mount_point_not_dir w db mp ao fi Hm Hd).
  - intros Hd fd Hdb.
    assert (His : is_directory w mp = true)
      by (unfold is_directory; now rewrite Hm).
    assert (Hex : path_exists w db = true)
      by (unfold path_exists; now rewrite Hdb).
    destruct (mountExplicit_cases w db mp ao)
      as [(Hm' & _) | [(_ & Hd' & _) | [(_ & _ & _ & Ht)
         | [(_ & _ & _ & _ & Ht) | (_ & [Ht | [_ Ht]])]]]];
      try congruence; rewrite Ht; unfold launch_trace; cbn [app];
      try (rewrite <- app_assoc; cbn [app]);
      eexists; reflexivity.
Qed.

Lemma C5_mount_point_must_be_directory_witness :
  mountExplicit "/home/u/files.db" "/home/u/files.db" true
    (sample_world StillRunning "")
  = (Some (NotADirectory "/home/u/files.db"), [EStat "/home/u/files.db"])
  /\ exists rest,
       trace (mountExplicit "/mnt/tags" "/mnt/tags" true)
         (sample_world StillRunning "")
       = EStat "/mnt/tags" :: EStat "/mnt/tags"
           :: ELogSupp (spawn_message "/mnt/tags" "/mnt/tags")
           :: EStderrPipe (daemon_cmd (sample_world StillRunning "")
                             "/mnt/tags" "/mnt/tags" true)
           :: rest.
Proof.
  split.
  - apply (proj1 (C5_mount_point_must_be_directory
                    (sample_world StillRunning "")
                    "/home/u/files.db" "/home/u/files.db" true
                    (mkFileInfo "files.db" false) eq_refl)).
    reflexivity.
  - apply (proj2 (C5_mount_point_must_be_directory
                    (sample_world StillRunning "")
                    "/mnt/tags" "/mnt/tags" true
                    (mkFileInfo "tags" true) eq_refl) eq_refl
             (mkFileInfo "tags" true)).
    reflexivity.
Defined.

(** A directory given as the database passes the database check. *)
Example database_may_be_a_directory :
  mountExplicit "/mnt/tags" "/mnt/tags" false (sample_world StillRunning "")
  = (None, launch_trace (sample_world StillRunning "")
             "/mnt/tags" "/mnt/tags" false).
Proof. reflexivity. Qed.

(** ** Launching the daemon *)

(** C2, as stated, fails: a daemon that exits with status 1 and has written
    nothing leaves a drained pipe, the read of no byte is io.EOF, and the
    command reports the read failure, not an empty mount failure. *)
Lemma C2_zero_byte_read_is_reported_as_read_failure :
  let w := sample_world (Terminated 256%Z) "" in
  polled w "/home/u/files.db" "/mnt/tags" = true
  /\ Exited 256%Z = true /\ ExitStatus 256%Z = 1%Z
  /\ child_stderr w = "" /\ read_fault w = None
  /\ result (mountExplicit "/home/u/files.db" "/mnt/tags" false) w
     = Some (DiagnosticReadFailed "EOF")
  /\ result (mountExplicit "/home/u/files.db" "/mnt/tags" false) w
     <> Some (MountFailed "").
Proof.
  cbv zeta. repeat (split; [reflexivity|]). discriminate.
Qed.

(** C2, amended. When the poll shows a non-zero exit status, the one read
    of the pipe decides the error: a read that fails gives the "could not
    read from error pipe" error with its cause; a read of no byte is such a
    failure, with cause EOF; a read of at least one byte gives the "mount
    failed" error, whose text is those bytes and so is never empty. *)
Theorem C2_read_outcome_decides_error w db mp ao ws :
  polled w db mp = true -> child w = Terminated ws ->
  Exited ws = true -> ExitStatus ws <> 0%Z ->
  let r := result (mountExplicit db mp ao) w in
  (forall e, read_fault w = Some e -> r = Some (DiagnosticReadFailed e))
  /\ (read_fault w = None -> child_stderr w = "" ->
      r = Some (DiagnosticReadFailed "EOF"))
  /\ (read_fault w = None -> child_stderr w <> "" ->
      r = Some (MountFailed (substring 0 1024 (child_stderr w)))
      /\ substring 0 1024 (child_stderr w) <> "")
  /\ (forall e, r = Some (DiagnosticReadFailed e) <->
        snd (pipe_Read (child_stderr w) (read_fault w) (make_bytes 1024))
        = Some e)
  /\ r <> Some (MountFailed "").
Proof.
  intros Hp Hc Hx Hz. cbv zeta. unfold result.
  split; [|split; [|split; [|split]]].
  - intros e Hr. now rewrite (run_read_fault w db mp ao ws e Hp Hc Hx Hz Hr).
  - intros Hr He. now rewrite (run_read_eof w db mp ao ws Hp Hc Hx Hz Hr He).
  - intros Hr He.
    rewrite (run_mount_failed w db mp ao ws Hp Hc Hx Hz Hr He).
    split; [reflexivity|].
    destruct (child_stderr w); [congruence | discriminate].
  - intros e. destruct (read_fault w) as [e'|] eqn:Hr.
    + rewrite (run_read_fault w db mp ao ws e' Hp Hc Hx Hz Hr). simpl.
      unfold DiagnosticReadFailed.
      split; intros H; injection H as H; subst; reflexivity.
    + destruct (string_dec (child_stderr w) "") as [He|He].
      * rewrite (run_read_eof w db mp ao ws Hp Hc Hx Hz Hr He).
        rewrite He, pipe_Read_empty. simpl. unfold DiagnosticReadFailed.
        split; intros H; injection H as H; subst; reflexivity.
      * rewrite (run_mount_failed w db mp ao ws Hp Hc Hx Hz Hr He).
        destruct (pipe_Read_data (child_stderr w) 1023 He)
          as (b & c & Hb & _).
        rewrite Hb. simpl. split; discriminate.
  - destruct (read_fault w) as [e'|] eqn:Hr.
    + rewrite (run_read_fault w db mp ao ws e' Hp Hc Hx Hz Hr). discriminate.
    + destruct (string_dec (child_stderr w) "") as [He|He].
      * rewrite (run_read_eof w db mp ao ws Hp Hc Hx Hz Hr He). discriminate.
      * rewrite (run_mount_failed w db mp ao ws Hp Hc Hx Hz Hr He).
        cbn [fst]. intros E. injection E as E.
        destruct (child_stderr w); [congruence | discriminate E].
Qed.

Lemma C2_read_outcome_decides_error_witness :
  result (mountExplicit "/home/u/files.db" "/mnt/tags" true)
    (sample_world (Terminated 256%Z) "fuse: failed")
  = Some (MountFailed "fuse: failed")
  /\ result (mountExplicit "/home/u/files.db" "/mnt/tags" true)
       (sample_world (Terminated 256%Z) "")
     = Some (DiagnosticReadFailed "EOF").
Proof.
  assert (Hz : ExitStatus 256%Z <> 0%Z) by (vm_compute; discriminate).
  split.
  - apply (proj1 (proj2 (proj2 (C2_read_outcome_decides_error
             (sample_world (Terminated 256%Z) "fuse: failed")
             "/home/u/files.db" "/mnt/tags" true 256%Z
             eq_refl eq_refl eq_refl Hz))));
      [reflexivity | discriminate].
  - apply (proj1 (proj2 (C2_read_outcome_decides_error
             (sample_world (Terminated 256%Z) "")
             "/home/u/files.db" "/mnt/tags" true 256%Z
             eq_refl eq_refl eq_refl Hz)));
      reflexivity.
Defined.

(** C6. A daemon that exits with a non-zero status after writing "mount
    point busy" makes the operation fail with the "mount failed" error
    carrying exactly that text.  Whatever the daemon wrote, one read into a
    buffer of 1024 bytes is made, and a "mount failed" error carries the
    first 1024 bytes of it at most. *)
Theorem C6_diagnostic_is_surfaced_and_bounded w db mp ao ws :
  polled w db mp = true -> child w = Terminated ws ->
  Exited ws = true -> ExitStatus ws <> 0%Z ->
  let r := result (mountExplicit db mp ao) w in
  let t := trace (mountExplicit db mp ao) w in
  r <> None
  /\ t = (launch_trace w db mp ao ++ [ERead 1024])%list
  /\ (read_fault w = None -> child_stderr w = "mount point busy" ->
      r = Some (MountFailed "mount point busy"))
  /\ (forall d, r = Some (MountFailed d) ->
        d = substring 0 1024 (child_stderr w) /\ String.length d <= 1024).
Proof.
  intros Hp Hc Hx Hz. cbv zeta. unfold result, trace.
  destruct (read_fault w) as [e|] eqn:Hr.
  { rewrite (run_read_fault w db mp ao ws e Hp Hc Hx Hz Hr). simpl.
    repeat split; try discriminate. all: intros; discriminate. }
  destruct (string_dec (child_stderr w) "") as [He|He].
  { rewrite (run_read_eof w db mp ao ws Hp Hc Hx Hz Hr He). simpl.
    repeat split; try discriminate. all: intros; try discriminate.
    rewrite He in *. discriminate. }
  rewrite (run_mount_failed w db mp ao ws Hp Hc Hx Hz Hr He). simpl fst.
  simpl snd. split; [discriminate|]. split; [reflexivity|]. split.
  - intros _ Hb. rewrite Hb. reflexivity.
  - intros d Hd. injection Hd as Hd.
    subst d. split; [reflexivity|].
    rewrite length_substring_0. apply Nat.le_min_l.
Qed.

Lemma C6_diagnostic_is_surfaced_and_bounded_witness :
  result (mountExplicit "/home/u/files.db" "/mnt/tags" false)
    (sample_world (Terminated 256%Z) "mount point busy")
  = Some (MountFailed "mount point busy").
Proof.
  assert (Hz : ExitStatus 256%Z <> 0%Z) by (vm_compute; discriminate).
  apply (proj1 (proj2 (proj2 (C6_diagnostic_is_surfaced_and_bounded
           (sample_world (Terminated 256%Z) "mount point busy")
           "/home/u/files.db" "/mnt/tags" false 256%Z
           eq_refl eq_refl eq_refl Hz))));
    reflexivity.
Defined.

(** C7. When the poll finds the daemon still running, or exited with
    status zero, the operation returns no error; the poll is its last call:
    nothing is read from the pipe and nothing that could block follows. *)
Theorem C7_running_or_clean_exit_is_success w db mp ao :
  polled w db mp = true ->
  (child w = StillRunning
   \/ exists ws, child w = Terminated ws /\ Exited ws = true
                 /\ ExitStatus ws = 0%Z) ->
  let t := trace (mountExplicit db mp ao) w in
  result (mountExplicit db mp ao) w = None
  /\ existsb is_read t = false
  /\ exists before,
       t = (before ++ [EWait4 (daemon_pid w) WNOHANG])%list
       /\ List.length (filter is_blocking before) = 1%nat.
Proof.
  intros Hp Hc. cbv zeta. unfold result, trace.
  assert (E : mountExplicit db mp ao w = (None, launch_trace w db mp ao)).
  { destruct Hc as [Hc | (ws & Hc & Hx & Hz)].
    - exact (run_still_running w db mp ao Hp Hc).
    - exact (run_exited_zero w db mp ao ws Hp Hc Hx Hz). }
  rewrite E. cbn [fst snd].
  split; [reflexivity|]. split; [trace_calc; reflexivity|].
  exists ([EStat mp; EStat db; ELogSupp (spawn_message db mp)]
          ++ lookup_trace w
          ++ [EStderrPipe (daemon_cmd w db mp ao);
              EStart (daemon_cmd w db mp ao); ELogSupp "sleeping.";
              ESleep HALF_SECOND;
              ELogSupp "checking whether daemon started successfully."])%list.
  split.
  - unfold launch_trace. cbn [app]. rewrite <- app_assoc. reflexivity.
  - trace_calc. reflexivity.
Qed.

Lemma C7_running_or_clean_exit_is_success_witness :
  result (mountExplicit "/home/u/files.db" "/mnt/tags" false)
    (sample_world StillRunning "") = None
  /\ result (mountExplicit "/home/u/files.db" "/mnt/tags" false)
       (sample_world (Terminated 0%Z) "") = None.
Proof.
  split.
  - apply (C7_running_or_clean_exit_is_success
             (sample_world StillRunning "")
             "/home/u/files.db" "/mnt/tags" false eq_refl).
    left. reflexivity.
  - apply (C7_running_or_clean_exit_is_success
             (sample_world (Terminated 0%Z) "")
             "/home/u/files.db" "/mnt/tags" false eq_refl).
    right. exists 0%Z. repeat split.
Defined.

(** C8. Once the daemon is started the command sleeps once, for
    [HALF_SECOND], which is 500 milliseconds, then polls once with
    wait4 and WNOHANG, which does not block; after the poll at most one
    read of the pipe follows.  A poll that fails gives the "could not check
    daemon status" error and ends the run. *)
Theorem C8_sleep_then_single_nonblocking_poll w db mp ao :
  started w db mp = true ->
  let r := result (mountExplicit db mp ao) w in
  let t := trace (mountExplicit db mp ao) w in
  HALF_SECOND = (500 * time_Millisecond)%Z
  /\ (exists rest,
        t = (EStat mp :: EStat db :: ELogSupp (spawn_message db mp)
               :: lookup_trace w
               ++ EStderrPipe (daemon_cmd w db mp ao)
               :: EStart (daemon_cmd w db mp ao)
               :: ELogSupp "sleeping."
               :: ESleep (500 * time_Millisecond)
               :: ELogSupp "checking whether daemon started successfully."
               :: EWait4 (daemon_pid w) WNOHANG
               :: rest)%list
        /\ (rest = [] \/ rest = [ERead 1024]))
  /\ List.length (filter is_sleep t) = 1%nat
  /\ List.length (filter is_poll t) = 1%nat
  /\ is_blocking (EWait4 (daemon_pid w) WNOHANG) = false
  /\ (forall e, wait_fault w = Some e ->
        r = Some (PollFailed e) /\ t = launch_trace w db mp ao).
Proof.
  intros Hs. cbv zeta. split; [reflexivity|].
  assert (Ht : trace (mountExplicit db mp ao) w = launch_trace w db mp ao
               \/ trace (mountExplicit db mp ao) w
                  = (launch_trace w db mp ao ++ [ERead 1024])%list).
  { destruct (mountExplicit_cases w db mp ao)
      as [(Hm & _) | [(_ & Hd & _) | [(_ & Hp & _)
         | [(_ & _ & Hf & _) | (_ & [Ht | [_ Ht]])]]]];
      try (now left); try (now right); exfalso; world_facts; congruence. }
  split; [|split; [|split; [|split]]].
  - destruct Ht as [Ht | Ht]; rewrite Ht; unfold launch_trace; cbn [app];
      [|rewrite <- app_assoc; cbn [app]];
      eexists; (split; [reflexivity|]); [now left | now right].
  - destruct Ht as [Ht | Ht]; rewrite Ht; trace_calc; reflexivity.
  - destruct Ht as [Ht | Ht]; rewrite Ht; trace_calc; reflexivity.
  - reflexivity.
  - intros e He. unfold result, trace.
    now rewrite (run_wait_fault w db mp ao e Hs He).
Qed.

Lemma C8_sleep_then_single_nonblocking_poll_witness :
  result (mountExplicit "/home/u/files.db" "/mnt/tags" false) poll_broken_world
  = Some (PollFailed "no child processes")
  /\ trace (mountExplicit "/home/u/files.db" "/mnt/tags" false)
       poll_broken_world
     = launch_trace poll_broken_world "/home/u/files.db" "/mnt/tags" false.
Proof.
  apply (proj2 (proj2 (proj2 (proj2 (proj2
           (C8_sleep_then_single_nonblocking_poll poll_broken_world
              "/home/u/files.db" "/mnt/tags" false eq_refl)))))).
  reflexivity.
Defined.

(** The search is part of the run: under the bare name "tmsu" the two
    candidates are examined between the log line and the pipe. *)
Example search_is_traced :
  trace (mountExplicit "/home/u/files.db" "/mnt/tags" false) renamed_world
  = [EStat "/mnt/tags"; EStat "/home/u/files.db";
     ELogSupp (spawn_message "/home/u/files.db" "/mnt/tags");
     EStat "/usr/local/bin/tmsu"; EStat "/usr/bin/tmsu";
     EStderrPipe {| Path := "/usr/bin/tmsu";
                    Args := ["tmsu"; "vfs"; "/home/u/files.db";
                             "/mnt/tags"] |};
     EStart {| Path := "/usr/bin/tmsu";
               Args := ["tmsu"; "vfs"; "/home/u/files.db"; "/mnt/tags"] |};
     ELogSupp "sleeping."; ESleep 500000000;
     ELogSupp "checking whether daemon started successfully.";
     EWait4 4242 1].
Proof. reflexivity. Qed.




(** ** Default database and routing *)

Lemma mountDefault_run w mp ao :
  mountDefault mp ao w = mountExplicit (database_Path w) mp ao w.
Proof.
  unfold mountDefault, bind, ask, ret.
  destruct (mountExplicit (database_Path w) mp ao w) as [[e|] t];
    simpl; now rewrite app_nil_r.
Qed.

(** C10. Mounting the default database is mounting database.Path
    explicitly: same result, same calls in the same order. *)
Theorem C10_mountDefault_delegates w mp ao :
  mountDefault mp ao w = mountExplicit (database_Path w) mp ao w.
Proof.
  unfold mountDefault.
  change (bind (ask database_Path)
            (fun path =>
               bind (mountExplicit path mp ao)
                 (fun err => match err with
                             | Some e => ret (Some e)
                             | None => ret None
                             end)) w
          = mountExplicit (database_Path w) mp ao w).
  unfold bind at 1, ask. cbv beta iota. unfold bind.
  destruct (mountExplicit (database_Path w) mp ao w) as [err t].
  destruct err as [e|]; unfold ret; cbn [app]; now rewrite app_nil_r.
Qed.

Lemma listMounts_range_run (mt : list Mount) w :
  listMounts_range mt w = (tt, map mount_line mt).
Proof.
  induction mt as [|m mt IH]; [reflexivity|].
  cbn [listMounts_range]. unfold bind at 1.
  unfold log_Printf at 1, emit at 1. rewrite IH. reflexivity.
Qed.

(** [listMounts] asks the mount table once and prints one line per record,
    in the order of the table; an empty table is no error. *)
Lemma listMounts_run w :
  listMounts w =
    match mount_table w with
    | (_, Some e) =>
        (Some ("could not get mount table: " ++ e),
         [ELogSupp "retrieving mount table."; EGetMountTable])
    | (mt, None) =>
        (None,
         ELogSupp "retrieving mount table." :: EGetMountTable
           :: ((if (List.length mt =? 0)%nat
                then [ELogSupp "mount table is empty."] else [])
               ++ map mount_line mt)%list)
    end.
Proof.
  unfold listMounts, bind, vfs_GetMountTable, log_Supp, emit, ret.
  destruct (mount_table w) as [mt [e|]]; [reflexivity|].
  rewrite listMounts_range_run.
  destruct (List.length mt =? 0)%nat; simpl; now rewrite app_nil_r.
Qed.

(** C4. [mountExec] looks at the number of positional arguments only.
    None: the listing runs, and its error, if any, is wrapped.  One: the
    argument is the mount path and the database is database.Path.  Two:
    the first is the database path, the second the mount path.  Three or
    more: the "Too many arguments." error, with no call made at all.  The
    allow-other option is passed on unchanged to either mount. *)
Theorem C4_router_dispatches_on_argument_count
  (Options : Type) (HasOption : Options -> string -> bool)
  (options : Options) w :
  let allowOther := HasOption options "--allow-other" in
  let exec := mountExec Options HasOption options in
  exec [] w
  = (option_map (fun e => "could not list mounts: " ++ e)
       (result listMounts w),
     trace listMounts w)
  /\ In EGetMountTable (trace (exec []) w)
  /\ spawned (trace (exec []) w) = false
  /\ (forall mountPath,
        exec [mountPath] w
        = (option_map
             (fun e => "could not mount database at '" ++ mountPath
                       ++ "': " ++ e)
             (result (mountExplicit (database_Path w) mountPath allowOther) w),
           trace (mountExplicit (database_Path w) mountPath allowOther) w))
  /\ (forall databasePath mountPath,
        exec [databasePath; mountPath] w
        = (option_map
             (fun e => "could not mount database '" ++ databasePath
                       ++ "' at '" ++ mountPath ++ "': " ++ e)
             (result (mountExplicit databasePath mountPath allowOther) w),
           trace (mountExplicit databasePath mountPath allowOther) w))
  /\ (forall a b c rest,
        exec (a :: b :: c :: rest) w = (Some "Too many arguments.", [])).
Proof.
  cbv zeta.
  assert (E0 : mountExec Options HasOption options [] w
               = (option_map (fun e => "could not list mounts: " ++ e)
                    (result listMounts w), trace listMounts w)).
  { unfold mountExec, result, trace. cbn [List.length]. unfold bind, ret.
    destruct (listMounts w) as [[e|] t]; simpl; now rewrite app_nil_r. }
  split; [exact E0|]. split; [|split; [|split; [|split]]].
  - unfold trace at 1. rewrite E0. unfold trace. rewrite listMounts_run.
    destruct (mount_table w) as [mt [e|]]; simpl; tauto.
  - unfold trace at 1. rewrite E0. unfold trace. rewrite listMounts_run.
    destruct (mount_table w) as [mt [e|]]; [reflexivity|].
    unfold spawned. cbn [snd existsb is_start orb].
    rewrite existsb_app.
    assert (Hl : existsb is_start (map mount_line mt) = false)
      by (induction mt as [|m mt IH]; [reflexivity | exact IH]).
    rewrite Hl. destruct (List.length mt =? 0)%nat; reflexivity.
  - intros mountPath. unfold mountExec, result, trace.
    cbn [List.length nth]. unfold bind at 1.
    rewrite mountDefault_run.
    destruct (mountExplicit (database_Path w) mountPath _ w) as [[e|] t];
      unfold ret; simpl; now rewrite app_nil_r.
  - intros databasePath mountPath. unfold mountExec, result, trace.
    cbn [List.length nth]. unfold bind at 1.
    destruct (mountExplicit databasePath mountPath _ w) as [[e|] t];
      unfold ret; simpl; now rewrite app_nil_r.
  - intros a b c rest. reflexivity.
Qed.

(** * Further properties of the command *)

(** ** Listing *)

Lemma filter_printf_mount_lines (mt : list Mount) :
  filter is_printf (map mount_line mt) = map mount_line mt.
Proof.
  induction mt as [|m mt IH]; [reflexivity|].
  cbn [map filter mount_line is_printf]. now rewrite IH.
Qed.

Lemma filter_table_query_mount_lines (mt : list Mount) :
  filter is_table_query (map mount_line mt) = [].
Proof. induction mt as [|m mt IH]; [reflexivity | exact IH]. Qed.

(** X1. With a mount table that can be read, [listMounts] returns no
    error, asks for the table once and prints one line per record, in the
    order of the table; the note "mount table is empty." is logged exactly
    when the table has no record. *)
Theorem X1_listing_prints_each_record_once w (mt : list Mount) :
  mount_table w = (mt, None) ->
  let t := trace listMounts w in
  result listMounts w = None
  /\ filter is_printf t = map mount_line mt
  /\ count is_printf t = List.length mt
  /\ count is_table_query t = 1%nat
  /\ (In (ELogSupp "mount table is empty.") t <-> mt = []).
Proof.
  intros Hmt. cbv zeta. unfold result, trace, count.
  rewrite listMounts_run, Hmt. cbn [fst snd].
  assert (Hp : filter is_printf
                 (ELogSupp "retrieving mount table." :: EGetMountTable
                    :: ((if (List.length mt =? 0)%nat
                         then [ELogSupp "mount table is empty."] else [])
                        ++ map mount_line mt)%list)
               = map mount_line mt).
  { cbn [filter is_printf]. rewrite filter_app, filter_printf_mount_lines.
    destruct (List.length mt =? 0)%nat; reflexivity. }
  split; [reflexivity|]. split; [exact Hp|]. split; [|split].
  - rewrite Hp. apply length_map.
  - cbn [filter is_table_query]. rewrite filter_app.
    rewrite filter_table_query_mount_lines.
    destruct (List.length mt =? 0)%nat; reflexivity.
  - split.
    + intros [H | [H | H]]; try discriminate H.
      apply in_app_or in H. destruct mt as [|m mt]; [reflexivity|].
      exfalso. cbn [List.length Nat.eqb] in H.
      destruct H as [[] | H].
      apply in_map_iff in H. destruct H as (m' & H & _). discriminate H.
    + intros ->. cbn. tauto.
Qed.

Lemma X1_listing_prints_each_record_once_witness :
  filter is_printf (trace listMounts (table_world (sample_table, None)))
  = [ELogPrintf "'/home/u/files.db' at '/mnt/tags'";
     ELogPrintf "'/home/u/.tmsu/default.db' at '/mnt/all'"].
Proof.
  apply (proj1 (proj2 (X1_listing_prints_each_record_once
           (table_world (sample_table, None)) sample_table eq_refl))).
Defined.

Lemma mountExec_list_run (Options : Type)
  (HasOption : Options -> string -> bool) (options : Options) w :
  mountExec Options HasOption options [] w
  = (option_map (fun e => "could not list mounts: " ++ e)
       (result listMounts w), trace listMounts w).
Proof.
  unfold mountExec, result, trace. cbn [List.length]. unfold bind, ret.
  destruct (listMounts w) as [[e|] t]; simpl; now rewrite app_nil_r.
Qed.

(** X2. When the mount table cannot be read, the command without
    arguments fails with "could not list mounts: could not get mount
    table: CAUSE", and prints no record, whatever records came back with
    the error. *)
Theorem X2_unreadable_mount_table_is_reported
  (Options : Type) (HasOption : Options -> string -> bool)
  (options : Options) w (mt : list Mount) (e : error) :
  mount_table w = (mt, Some e) ->
  mountExec Options HasOption options [] w
  = (Some ("could not list mounts: could not get mount table: " ++ e),
     [ELogSupp "retrieving mount table."; EGetMountTable]).
Proof.
  intros Hmt. rewrite mountExec_list_run. unfold result, trace.
  rewrite listMounts_run, Hmt. reflexivity.
Qed.

Lemma X2_unreadable_mount_table_is_reported_witness :
  mountExec (list string) (fun o n => existsb (String.eqb n) o) []
    [] (table_world (sample_table, Some "open /etc/mtab: permission denied"))
  = (Some ("could not list mounts: could not get mount table: "
           ++ "open /etc/mtab: permission denied"),
     [ELogSupp "retrieving mount table."; EGetMountTable]).
Proof.
  apply (X2_unreadable_mount_table_is_reported (list string)
           (fun o n => existsb (String.eqb n) o) []
           (table_world (sample_table,
                         Some "open /etc/mtab: permission denied"))
           sample_table "open /etc/mtab: permission denied").
  reflexivity.
Defined.

(** ** When a mount succeeds *)

Lemma succeeds_run w db mp ao :
  succeeds w db mp = true -> result (mountExplicit db mp ao) w = None.
Proof.
  unfold succeeds. intros H. apply andb_prop in H as [Hp Hd].
  unfold result. destruct (child w) as [|ws] eqn:Hc.
  - now rewrite (run_still_running w db mp ao Hp Hc).
  - cbn [daemon_ok] in Hd. destruct (Exited ws) eqn:Hx.
    + cbn [andb] in Hd. apply negb_true_iff, negb_false_iff in Hd.
      apply Z.eqb_eq in Hd.
      now rewrite (run_exited_zero w db mp ao ws Hp Hc Hx Hd).
    + now rewrite (run_not_exited w db mp ao ws Hp Hc Hx).
Qed.

Lemma fails_run w db mp ao :
  succeeds w db mp = false -> result (mountExplicit db mp ao) w <> None.
Proof.
  unfold succeeds. intros H.
  destruct (mountExplicit_cases w db mp ao)
    as [(_ & Hr & _) | [(_ & _ & Hr & _) | [(_ & _ & Hr & _)
       | [(_ & _ & _ & Hr & _) | (Hst & _)]]]]; try exact Hr.
  unfold result. destruct (wait_fault w) as [e|] eqn:Hw.
  { now rewrite (run_wait_fault w db mp ao e Hst Hw). }
  assert (Hp : polled w db mp = true)
    by (unfold polled; now rewrite Hst, Hw).
  rewrite Hp in H. cbn [andb] in H.
  destruct (child w) as [|ws] eqn:Hc; [discriminate H|].
  cbn [daemon_ok] in H. apply negb_false_iff, andb_prop in H as [Hx Hz].
  apply negb_true_iff, Z.eqb_neq in Hz.
  destruct (read_fault w) as [e|] eqn:Hr.
  { now rewrite (run_read_fault w db mp ao ws e Hp Hc Hx Hz Hr). }
  destruct (string_dec (child_stderr w) "") as [He|He].
  - now rewrite (run_read_eof w db mp ao ws Hp Hc Hx Hz Hr He).
  - now rewrite (run_mount_failed w db mp ao ws Hp Hc Hx Hz Hr He).
Qed.

(** X3. [mountExplicit] returns nil in exactly one situation: the mount
    point is a directory, the database path resolves, the pipe opens, the
    daemon starts, the poll works, and the poll does not show a daemon
    that exited with a status other than zero. *)
Theorem X3_success_characterised w db mp ao :
  result (mountExplicit db mp ao) w = None <-> succeeds w db mp = true.
Proof.
  split.
  - intros Hr. destruct (succeeds w db mp) eqn:Hs; [reflexivity|].
    exfalso. exact (fails_run w db mp ao Hs Hr).
  - apply succeeds_run.
Qed.

(** ** Status words *)

Lemma Exited_exit_word (code : Z) : Exited (exit_word code) = true.
Proof.
  unfold Exited, exit_word. apply Z.eqb_eq.
  change 127%Z with (Z.ones 7). rewrite Z.land_ones by lia.
  rewrite Z.shiftl_mul_pow2 by lia.
  change (2 ^ 8)%Z with (2 * 2 ^ 7)%Z.
  rewrite Z.mul_assoc. apply Z.mod_mul. lia.
Qed.

Lemma ExitStatus_exit_word (code : Z) :
  (0 <= code <= 255)%Z -> ExitStatus (exit_word code) = code.
Proof.
  intros Hc. unfold ExitStatus. rewrite Exited_exit_word.
  unfold exit_word. rewrite Z.shiftr_shiftl_l by lia.
  change (8 - 8)%Z with 0%Z. rewrite Z.shiftl_0_r.
  change 255%Z with (Z.ones 8). rewrite Z.land_ones by lia.
  apply Z.mod_small. change (2 ^ 8)%Z with 256%Z. lia.
Qed.

Lemma Exited_signal_word (sig : Z) (core : bool) :
  (1 <= sig <= 126)%Z -> Exited (signal_word sig core) = false.
Proof.
  intros Hs. unfold Exited, signal_word. apply Z.eqb_neq.
  rewrite Z.land_lor_distr_l.
  assert (Hc : Z.land (if core then 128 else 0) 127 = 0%Z)
    by (destruct core; reflexivity).
  rewrite Hc, Z.lor_0_r.
  change 127%Z with (Z.ones 7). rewrite Z.land_ones by lia.
  rewrite Z.mod_small; [lia|]. change (2 ^ 7)%Z with 128%Z. lia.
Qed.

(** X4. For a daemon that has called exit(code), 0 <= code <= 255, by the
    time of the poll, the exit code alone decides: the mount is reported
    as done for code 0 and as failed for every other code, and the pipe is
    read exactly in the second case. *)
Theorem X4_exit_code_decides w db mp ao (code : Z) :
  polled w db mp = true ->
  child w = Terminated (exit_word code) ->
  (0 <= code <= 255)%Z ->
  (result (mountExplicit db mp ao) w = None <-> code = 0%Z)
  /\ (existsb is_read (trace (mountExplicit db mp ao) w) = true
      <-> code <> 0%Z).
Proof.
  intros Hp Hc Hcode.
  pose proof (Exited_exit_word code) as Hx.
  pose proof (ExitStatus_exit_word code Hcode) as Hs.
  destruct (Z.eq_dec code 0) as [Hz|Hz].
  - assert (Hz' : ExitStatus (exit_word code) = 0%Z) by congruence.
    unfold result, trace.
    rewrite (run_exited_zero w db mp ao _ Hp Hc Hx Hz'). cbn [fst snd].
    split; [tauto|].
    assert (Hno : existsb is_read (launch_trace w db mp ao) = false)
      by (trace_calc; reflexivity).
    rewrite Hno. split; [discriminate | congruence].
  - assert (Hz' : ExitStatus (exit_word code) <> 0%Z) by congruence.
    pose proof (fails_run w db mp ao) as Hf.
    assert (Hs' : succeeds w db mp = false).
    { unfold succeeds. rewrite Hp, Hc. cbn [andb daemon_ok].
      rewrite Hx. apply Z.eqb_neq in Hz'. now rewrite Hz'. }
    split; [split; [intros H; now apply Hf in H | congruence]|].
    split; [intros _; exact Hz|]. intros _.
    unfold trace.
    assert (Hyes : existsb is_read
                     (launch_trace w db mp ao ++ [ERead 1024])%list = true)
      by (trace_calc; reflexivity).
    destruct (read_fault w) as [e|] eqn:Hr;
      [now rewrite (run_read_fault w db mp ao _ e Hp Hc Hx Hz' Hr)|].
    destruct (string_dec (child_stderr w) "") as [He|He].
    + now rewrite (run_read_eof w db mp ao _ Hp Hc Hx Hz' Hr He).
    + now rewrite (run_mount_failed w db mp ao _ Hp Hc Hx Hz' Hr He).
Qed.

Lemma X4_exit_code_decides_witness :
  (result (mountExplicit "/home/u/files.db" "/mnt/tags" false)
     (sample_world (Terminated (exit_word 2)) "bad database") = None
   <-> 2%Z = 0%Z)
  /\ (result (mountExplicit "/home/u/files.db" "/mnt/tags" false)
        (sample_world (Terminated (exit_word 0)) "") = None
      <-> 0%Z = 0%Z).
Proof.
  split.
  - apply (X4_exit_code_decides
             (sample_world (Terminated (exit_word 2)) "bad database")
             "/home/u/files.db" "/mnt/tags" false 2%Z);
      [reflexivity | reflexivity | lia].
  - apply (X4_exit_code_decides
             (sample_world (Terminated (exit_word 0)) "")
             "/home/u/files.db" "/mnt/tags" false 0%Z);
      [reflexivity | reflexivity | lia].
Defined.

(** X5. A daemon killed by a signal before the poll (signal 1 to 126,
    with or without a core dump) is not seen as a failure: its status word
    is not Exited, so the command returns nil and reads nothing from the
    pipe. *)
Theorem X5_signalled_daemon_is_reported_as_success w db mp ao
  (sig : Z) (core : bool) :
  polled w db mp = true ->
  child w = Terminated (signal_word sig core) ->
  (1 <= sig <= 126)%Z ->
  mountExplicit db mp ao w = (None, launch_trace w db mp ao).
Proof.
  intros Hp Hc Hs.
  exact (run_not_exited w db mp ao _ Hp Hc (Exited_signal_word sig core Hs)).
Qed.

Lemma X5_signalled_daemon_is_reported_as_success_witness :
  mountExplicit "/home/u/files.db" "/mnt/tags" false
    (sample_world (Terminated (signal_word 11 true)) "segmentation fault")
  = (None, launch_trace
             (sample_world (Terminated (signal_word 11 true))
                "segmentation fault")
             "/home/u/files.db" "/mnt/tags" false).
Proof.
  apply (X5_signalled_daemon_is_reported_as_success
           (sample_world (Terminated (signal_word 11 true))
              "segmentation fault")
           "/home/u/files.db" "/mnt/tags" false 11%Z true);
    [reflexivity | reflexivity | lia].
Defined.

(** ** Failures before the sleep *)

(** X6. For a request that passed both checks: if the stderr pipe cannot
    be opened the command fails with "could not open standard error pipe:
    CAUSE" and starts no process; if the pipe opens but the daemon cannot
    be started it fails with "could not start daemon: CAUSE".  Either way
    it returns at once: no sleep, no poll, no read. *)
Theorem X6_launch_faults_return_at_once w db mp ao :
  validated w db mp = true ->
  let r := result (mountExplicit db mp ao) w in
  let t := trace (mountExplicit db mp ao) w in
  (forall e, pipe_fault w = Some e ->
     r = Some ("could not open standard error pipe: " ++ e)
     /\ spawned t = false
     /\ existsb is_sleep t = false /\ existsb is_poll t = false
     /\ existsb is_read t = false)
  /\ (forall e, pipe_fault w = None -> start_fault w = Some e ->
        r = Some ("could not start daemon: " ++ e)
        /\ existsb is_sleep t = false /\ existsb is_poll t = false
        /\ existsb is_read t = false).
Proof.
  intros Hv. cbv zeta. unfold result, trace. split.
  - intros e Hp. rewrite (run_pipe_fault w db mp ao e Hv Hp).
    cbn [fst snd]. repeat split; trace_calc; reflexivity.
  - intros e Hp Hs. rewrite (run_start_fault w db mp ao e Hv Hp Hs).
    cbn [fst snd]. repeat split; trace_calc; reflexivity.
Qed.

Lemma X6_launch_faults_return_at_once_witness :
  result (mountExplicit "/home/u/files.db" "/mnt/tags" false)
    (launch_fault_world (Some "too many open files") None)
  = Some "could not open standard error pipe: too many open files"
  /\ result (mountExplicit "/home/u/files.db" "/mnt/tags" false)
       (launch_fault_world None (Some "exec format error"))
     = Some "could not start daemon: exec format error".
Proof.
  split.
  - apply (proj1 (X6_launch_faults_return_at_once
                    (launch_fault_world (Some "too many open files") None)
                    "/home/u/files.db" "/mnt/tags" false eq_refl)
             "too many open files" eq_refl).
  - apply (proj2 (X6_launch_faults_return_at_once
                    (launch_fault_world None (Some "exec format error"))
                    "/home/u/files.db" "/mnt/tags" false eq_refl)
             "exec format error" eq_refl eq_refl).
Defined.

(** X7. The mount point is checked first and alone: when it is missing,
    unreadable or not a directory, the database path is never looked at
    (the run is the single os.Stat of the mount point, whatever the
    database path is), and the error starts with the mount path. *)
Theorem X7_bad_mount_point_hides_database w db mp ao :
  is_directory w mp = false ->
  trace (mountExplicit db mp ao) w = [EStat mp]
  /\ exists msg, result (mountExplicit db mp ao) w = Some (mp ++ ": " ++ msg).
Proof.
  intros Hm. unfold is_directory in Hm. unfold result, trace.
  destruct (fs w mp) as [|reason|fi] eqn:E.
  - rewrite (run_mount_point_absent w db mp ao E).
    split; [reflexivity|]. eexists. reflexivity.
  - rewrite (run_mount_point_faulty w db mp ao reason E).
    split; [reflexivity|]. eexists. reflexivity.
  - rewrite (run_mount_point_not_dir w db mp ao fi E Hm).
    split; [reflexivity|]. eexists. reflexivity.
Qed.

Lemma X7_bad_mount_point_hides_database_witness :
  trace (mountExplicit "/nowhere.db" "/root/vault" false)
    (sample_world StillRunning "") = [EStat "/root/vault"]
  /\ exists msg,
       result (mountExplicit "/nowhere.db" "/root/vault" false)
         (sample_world StillRunning "")
       = Some ("/root/vault" ++ ": " ++ msg).
Proof.
  apply (X7_bad_mount_point_hides_database (sample_world StillRunning "")
           "/nowhere.db" "/root/vault" false).
  reflexivity.
Defined.

(** ** The diagnostic text *)

Lemma substring_0_all (n : nat) (s : string) :
  String.length s <= n -> substring 0 n s = s.
Proof.
  revert n; induction s as [|c s IH]; intros [|n] H; simpl in *;
    try reflexivity; try lia.
  rewrite IH by lia. reflexivity.
Qed.

Lemma prefix_substring_0 (n : nat) (s : string) :
  prefix (substring 0 n s) s = true.
Proof.
  revert s; induction n as [|n IH]; intros [|c s]; simpl; try reflexivity.
  destruct (ascii_dec c c) as [_|Hn]; [apply IH | congruence].
Qed.

(** X8. When the daemon exited with a non-zero status, the read works and
    the daemon wrote something: a text of at most 1024 bytes is reported
    whole after "virtual filesystem mount failed: "; of a longer text
    exactly the first 1024 bytes are reported. *)
Theorem X8_diagnostic_whole_or_truncated w db mp ao ws :
  polled w db mp = true -> child w = Terminated ws ->
  Exited ws = true -> ExitStatus ws <> 0%Z ->
  read_fault w = None -> child_stderr w <> "" ->
  exists d,
    result (mountExplicit db mp ao) w = Some (MountFailed d)
    /\ prefix d (child_stderr w) = true
    /\ String.length d = Nat.min 1024 (String.length (child_stderr w))
    /\ (String.length (child_stderr w) <= 1024 -> d = child_stderr w).
Proof.
  intros Hp Hc Hx Hz Hr He.
  exists (substring 0 1024 (child_stderr w)). unfold result.
  rewrite (run_mount_failed w db mp ao ws Hp Hc Hx Hz Hr He).
  split; [reflexivity|]. split; [apply prefix_substring_0|].
  split; [apply length_substring_0 | apply substring_0_all].
Qed.

Lemma X8_diagnostic_whole_or_truncated_witness :
  exists d,
    result (mountExplicit "/home/u/files.db" "/mnt/tags" false)
      (sample_world (Terminated (exit_word 1)) "fusermount: not found")
    = Some (MountFailed d)
    /\ prefix d "fusermount: not found" = true
    /\ String.length d = Nat.min 1024 (String.length "fusermount: not found")
    /\ (String.length "fusermount: not found" <= 1024 ->
        d = "fusermount: not found").
Proof.
  assert (Hz : ExitStatus (exit_word 1) <> 0%Z) by (vm_compute; discriminate).
  apply (X8_diagnostic_whole_or_truncated
           (sample_world (Terminated (exit_word 1)) "fusermount: not found")
           "/home/u/files.db" "/mnt/tags" false (exit_word 1)
           eq_refl eq_refl eq_refl Hz eq_refl).
  discriminate.
Defined.

(** ** The router and the default database *)

Lemma succeeds_iff w db mp ao :
  result (mountExplicit db mp ao) w = None <-> succeeds w db mp = true.
Proof.
  split; [|apply succeeds_run].
  intros Hr. destruct (succeeds w db mp) eqn:Hs; [reflexivity|].
  exfalso. exact (fails_run w db mp ao Hs Hr).
Qed.

Lemma mountExec_two_run (Options : Type)
  (HasOption : Options -> string -> bool) (options : Options) w db mp :
  mountExec Options HasOption options [db; mp] w
  = (option_map
       (fun e => "could not mount database '" ++ db ++ "' at '" ++ mp
                 ++ "': " ++ e)
       (result (mountExplicit db mp (HasOption options "--allow-other")) w),
     trace (mountExplicit db mp (HasOption options "--allow-other")) w).
Proof.
  unfold mountExec, result, trace. cbn [List.length nth]. unfold bind at 1.
  destruct (mountExplicit db mp _ w) as [[e|] t];
    unfold ret; simpl; now rewrite app_nil_r.
Qed.

Lemma mountExec_one_run (Options : Type)
  (HasOption : Options -> string -> bool) (options : Options) w mp :
  mountExec Options HasOption options [mp] w
  = (option_map
       (fun e => "could not mount database at '" ++ mp ++ "': " ++ e)
       (result (mountExplicit (database_Path w) mp
                  (HasOption options "--allow-other")) w),
     trace (mountExplicit (database_Path w) mp
              (HasOption options "--allow-other")) w).
Proof.
  unfold mountExec, result, trace. cbn [List.length nth]. unfold bind at 1.
  rewrite mountDefault_run.
  destruct (mountExplicit (database_Path w) mp _ w) as [[e|] t];
    unfold ret; simpl; now rewrite app_nil_r.
Qed.

(** X9. Giving the command the mount path alone makes the same calls, in
    the same order, as giving it database.Path and the mount path, and
    succeeds in the same cases; on failure the two differ only in how the
    cause is introduced ("could not mount database at 'M': " against
    "could not mount database 'D' at 'M': "). *)
Theorem X9_one_argument_is_two_with_default
  (Options : Type) (HasOption : Options -> string -> bool)
  (options : Options) w mp :
  let exec := mountExec Options HasOption options in
  let db := database_Path w in
  trace (exec [mp]) w = trace (exec [db; mp]) w
  /\ (result (exec [mp]) w = None <-> succeeds w db mp = true)
  /\ (result (exec [db; mp]) w = None <-> succeeds w db mp = true)
  /\ (forall e, result (exec [mp]) w = Some e ->
        exists cause,
          e = "could not mount database at '" ++ mp ++ "': " ++ cause
          /\ result (exec [db; mp]) w
             = Some ("could not mount database '" ++ db ++ "' at '" ++ mp
                     ++ "': " ++ cause)).
Proof.
  cbv zeta.
  assert (R1 : result (mountExec Options HasOption options [mp]) w
               = fst (mountExec Options HasOption options [mp] w))
    by reflexivity.
  assert (R2 : result (mountExec Options HasOption options
                         [database_Path w; mp]) w
               = fst (mountExec Options HasOption options
                        [database_Path w; mp] w))
    by reflexivity.
  assert (T1 : trace (mountExec Options HasOption options [mp]) w
               = snd (mountExec Options HasOption options [mp] w))
    by reflexivity.
  assert (T2 : trace (mountExec Options HasOption options
                        [database_Path w; mp]) w
               = snd (mountExec Options HasOption options
                        [database_Path w; mp] w))
    by reflexivity.
  rewrite R1, R2, T1, T2, mountExec_one_run, mountExec_two_run.
  cbn [fst snd]. clear R1 R2 T1 T2.
  pose proof (succeeds_iff w (database_Path w) mp
                (HasOption options "--allow-other")) as Hiff.
  destruct (result (mountExplicit (database_Path w) mp
                      (HasOption options "--allow-other")) w) as [c|];
    cbn [option_map].
  - split; [reflexivity|]. split; [|split].
    + split; [discriminate|]. intros H. apply Hiff in H. discriminate H.
    + split; [discriminate|]. intros H. apply Hiff in H. discriminate H.
    + intros e He. injection He as <-. exists c. split; reflexivity.
  - split; [reflexivity|]. split; [|split].
    + split; [intros _; now apply Hiff | reflexivity].
    + split; [intros _; now apply Hiff | reflexivity].
    + intros e He. discriminate He.
Qed.

(** ** What a run is made of *)

Lemma filter_stat_lookup_trace w :
  filter is_stat (lookup_trace w) = lookup_trace w.
Proof.
  unfold lookup_trace.
  induction (tried (path_search w (os_Args0 w))) as [|n l IH];
    [reflexivity|].
  cbn [map filter is_stat]. now rewrite IH.
Qed.

Lemma length_lookup_trace w :
  List.length (lookup_trace w)
  = List.length (tried (path_search w (os_Args0 w))).
Proof. unfold lookup_trace. apply length_map. Qed.

Ltac count_calc :=
  unfold count, launch_trace; cbn [app];
  cbn [filter is_stat is_start is_sleep is_poll is_read];
  repeat rewrite filter_app;
  rewrite ?filter_stat_lookup_trace;
  repeat (rewrite filter_lookup_trace by reflexivity);
  cbn [app filter is_stat is_start is_sleep is_poll is_read List.length];
  repeat rewrite length_app;
  rewrite ?length_lookup_trace;
  cbn [List.length]; lia.

(** X10. Whatever the outcome, one run of [mountExplicit] begins with the
    os.Stat of the mount path.  The only paths it examines are its two
    arguments and the candidates exec.Command tries for os.Args[0], and no
    candidate is tried for a request that fails a check.  It starts at
    most one process, sleeps at most once, polls at most once and reads
    the pipe at most once. *)
Theorem X10_call_budget w db mp ao :
  let t := trace (mountExplicit db mp ao) w in
  let candidates := tried (path_search w (os_Args0 w)) in
  hd_error t = Some (EStat mp)
  /\ (forall name, In (EStat name) t ->
        name = mp \/ name = db
        \/ (validated w db mp = true /\ In name candidates))
  /\ count is_stat t <= 2 + List.length candidates
  /\ count is_start t <= 1
  /\ count is_sleep t <= 1
  /\ count is_poll t <= 1
  /\ count is_read t <= 1
  /\ List.length t <= 10 + List.length candidates.
Proof.
  cbv zeta.
  assert (Hin : forall name rest,
             validated w db mp = true ->
             (forall n, ~ In (EStat n) rest) ->
             In (EStat name)
               (EStat mp :: EStat db :: ELogSupp (spawn_message db mp)
                  :: (lookup_trace w ++ rest)%list) ->
             name = mp \/ name = db
             \/ (validated w db mp = true
                 /\ In name (tried (path_search w (os_Args0 w))))).
  { intros name rest Hv Hno [H | [H | [H | H]]].
    - injection H as <-. now left.
    - injection H as <-. right. now left.
    - discriminate H.
    - apply in_app_or in H. destruct H as [H | H].
      + apply in_lookup_trace in H. destruct H as (n & Hn & Hc).
        injection Hn as ->. right. right. now split.
      + now apply Hno in H. }
  assert (Hnone : forall (rest : list Event),
             (forall ev, In ev rest -> is_stat ev = false) ->
             forall n, ~ In (EStat n) rest).
  { intros rest Hall n H. apply Hall in H. discriminate H. }
  destruct (mountExplicit_cases w db mp ao)
    as [(_ & _ & Ht) | [(_ & _ & _ & Ht) | [(Hv & _ & _ & Ht)
       | [(Hv & _ & _ & _ & Ht) | (Hst & [Ht | [_ Ht]])]]]];
    rewrite Ht.
  - split; [reflexivity|]. split; [|repeat split; count_calc].
    intros name [H | []]. injection H as <-. now left.
  - split; [reflexivity|]. split; [|repeat split; count_calc].
    intros name [H | [H | []]]; injection H as <-; [now left | right; now left].
  - split; [reflexivity|]. split; [|repeat split; count_calc].
    intros name. cbn [app]. apply (Hin name _ Hv). apply Hnone.
    intros ev Hev. simpl in Hev.
    repeat destruct Hev as [Hev|Hev]; try contradiction; now subst ev.
  - split; [reflexivity|]. split; [|repeat split; count_calc].
    intros name. cbn [app]. apply (Hin name _ Hv). apply Hnone.
    intros ev Hev. simpl in Hev.
    repeat destruct Hev as [Hev|Hev]; try contradiction; now subst ev.
  - assert (Hv : validated w db mp = true).
    { unfold started in Hst. apply andb_prop in Hst as [Hst _].
      now apply andb_prop in Hst as [Hst _]. }
    split; [reflexivity|]. split; [|repeat split; count_calc].
    intros name. unfold launch_trace. cbn [app].
    apply (Hin name _ Hv). apply Hnone.
    intros ev Hev. simpl in Hev.
    repeat destruct Hev as [Hev|Hev]; try contradiction; now subst ev.
  - assert (Hv : validated w db mp = true).
    { unfold started in Hst. apply andb_prop in Hst as [Hst _].
      now apply andb_prop in Hst as [Hst _]. }
    split; [reflexivity|]. split; [|repeat split; count_calc].
    intros name. unfold launch_trace. cbn [app]. rewrite <- app_assoc.
    apply (Hin name _ Hv). apply Hnone.
    intros ev Hev. simpl in Hev.
    repeat destruct Hev as [Hev|Hev]; try contradiction; now subst ev.
Qed.

(** X11. A run that returns nil has always made the same calls: the two
    checks, the log line, the search for the program, the pipe, the start
    of the daemon, the half-second sleep between two log lines and the
    poll; it has read nothing.  A run that read the pipe returned an error, and no run sleeps
    or polls without having started the daemon. *)
Theorem X11_shape_of_a_successful_run w db mp ao :
  let r := result (mountExplicit db mp ao) w in
  let t := trace (mountExplicit db mp ao) w in
  (r = None -> t = launch_trace w db mp ao)
  /\ (existsb is_read t = true -> r <> None)
  /\ (existsb is_sleep t = true -> spawned t = true)
  /\ (existsb is_poll t = true -> spawned t = true).
Proof.
  cbv zeta.
  destruct (mountExplicit_cases w db mp ao)
    as [(_ & Hr & Ht) | [(_ & _ & Hr & Ht) | [(_ & _ & Hr & Ht)
       | [(_ & _ & _ & Hr & Ht) | (_ & [Ht | [Hr Ht]])]]]];
    rewrite Ht;
    repeat split; intros H; try congruence; try reflexivity;
    try (revert H; trace_calc; intros H; discriminate H);
    try (trace_calc; reflexivity).
Qed.

(** X12. Every error [mountExplicit] returns has one of eight forms: the
    stat failure or the not-a-directory error for the mount path, the stat
    failure for the database path, the pipe error, the start error, the
    poll error, the read error, or the mount failure with a text of 1 to
    1024 bytes. *)
Theorem X12_error_catalogue w db mp ao (e : error) :
  result (mountExplicit db mp ao) w = Some e ->
  (exists cause, e = StatFailed mp cause)
  \/ e = NotADirectory mp
  \/ (exists cause, e = StatFailed db cause)
  \/ (exists cause, e = "could not open standard error pipe: " ++ cause)
  \/ (exists cause, e = "could not start daemon: " ++ cause)
  \/ (exists cause, e = PollFailed cause)
  \/ (exists cause, e = DiagnosticReadFailed cause)
  \/ (exists d, e = MountFailed d
                /\ 1 <= String.length d <= 1024).
Proof.
  unfold result.
  destruct (is_directory w mp) eqn:Hm.
  2:{ unfold is_directory in Hm. destruct (fs w mp) as [|reason|fi] eqn:E.
      - rewrite (run_mount_point_absent w db mp ao E).
        intros H; injection H as <-. left. eexists; reflexivity.
      - rewrite (run_mount_point_faulty w db mp ao reason E).
        intros H; injection H as <-. left. eexists; reflexivity.
      - rewrite (run_mount_point_not_dir w db mp ao fi E Hm).
        intros H; injection H as <-. right; left. reflexivity. }
  destruct (path_exists w db) eqn:Hd.
  2:{ unfold path_exists in Hd.
      destruct (fs w db) as [|reason|fi] eqn:E; [| |discriminate].
      - rewrite (run_database_absent w db mp ao Hm E).
        intros H; injection H as <-. do 2 right; left. eexists; reflexivity.
      - rewrite (run_database_faulty w db mp ao reason Hm E).
        intros H; injection H as <-. do 2 right; left. eexists; reflexivity. }
  assert (Hv : validated w db mp = true)
    by (unfold validated; now rewrite Hm, Hd).
  destruct (pipe_fault w) as [c|] eqn:Hp.
  { rewrite (run_pipe_fault w db mp ao c Hv Hp).
    intros H; injection H as <-. do 3 right; left. eexists; reflexivity. }
  destruct (start_fault w) as [c|] eqn:Hs.
  { rewrite (run_start_fault w db mp ao c Hv Hp Hs).
    intros H; injection H as <-. do 4 right; left. eexists; reflexivity. }
  assert (Hst : started w db mp = true)
    by (unfold started; now rewrite Hv, Hp, Hs).
  destruct (wait_fault w) as [c|] eqn:Hw.
  { rewrite (run_wait_fault w db mp ao c Hst Hw).
    intros H; injection H as <-. do 5 right; left. eexists; reflexivity. }
  assert (Hpo : polled w db mp = true)
    by (unfold polled; now rewrite Hst, Hw).
  destruct (child w) as [|ws] eqn:Hc.
  { rewrite (run_still_running w db mp ao Hpo Hc). discriminate. }
  destruct (Exited ws) eqn:Hx.
  2:{ rewrite (run_not_exited w db mp ao ws Hpo Hc Hx). discriminate. }
  destruct (Z.eq_dec (ExitStatus ws) 0) as [Hz|Hz].
  { rewrite (run_exited_zero w db mp ao ws Hpo Hc Hx Hz). discriminate. }
  destruct (read_fault w) as [c|] eqn:Hr.
  { rewrite (run_read_fault w db mp ao ws c Hpo Hc Hx Hz Hr).
    intros H; injection H as <-. do 6 right; left. eexists; reflexivity. }
  destruct (string_dec (child_stderr w) "") as [He|He].
  { rewrite (run_read_eof w db mp ao ws Hpo Hc Hx Hz Hr He).
    intros H; injection H as <-. do 6 right; left. eexists; reflexivity. }
  rewrite (run_mount_failed w db mp ao ws Hpo Hc Hx Hz Hr He).
  intros H; injection H as <-. do 7 right. eexists. split; [reflexivity|].
  rewrite length_substring_0. split; [|apply Nat.le_min_l].
  destruct (child_stderr w) as [|a s]; [congruence|]. simpl. lia.
Qed.

Lemma X12_error_catalogue_witness :
  let e := "/root/vault: could not stat: stat /root/vault: permission denied" in
  (exists cause, e = StatFailed "/mnt/tags" cause)
  \/ e = NotADirectory "/mnt/tags"
  \/ (exists cause, e = StatFailed "/root/vault" cause)
  \/ (exists cause, e = "could not open standard error pipe: " ++ cause)
  \/ (exists cause, e = "could not start daemon: " ++ cause)
  \/ (exists cause, e = PollFailed cause)
  \/ (exists cause, e = DiagnosticReadFailed cause)
  \/ (exists d, e = MountFailed d /\ 1 <= String.length d <= 1024).
Proof.
  apply (X12_error_catalogue (sample_world StillRunning "")
           "/root/vault" "/mnt/tags" false
           "/root/vault: could not stat: stat /root/vault: permission denied").
  reflexivity.
Defined.
